(** * nxp_simtemp: a simulated temperature sensor (Linux misc device)

    A shallow embedding of [kernel/scr/nxp_simtemp.c].  The driver keeps one
    [struct simtemp_dev]; a delayed work item ([simtemp_update_fn]) produces
    a sample per period, [st_poll] consumes the "new sample" flag, [st_read]
    exports the reading as text and four sysfs attributes configure it.

    Every driver function is a computation in a small state-and-trace monad:
    it threads the device structure and logs, in program order, each lock
    operation, each access to a field of the structure and each call into
    the wait queue, the work queue and user memory.  The log is what the
    locking and scheduling properties are stated on. *)

From Stdlib Require Import ZArith List Bool String Ascii Lia.
Import ListNotations.
Local Open Scope Z_scope.

(** ** Machine integers *)

Definition u32 (z : Z) : Z := z mod 2 ^ 32.
Definition u64 (z : Z) : Z := z mod 2 ^ 64.
(** [(int)val] for a [u32 val]: two's complement reinterpretation. *)
Definition int32 (z : Z) : Z := (z + 2 ^ 31) mod 2 ^ 32 - 2 ^ 31.

Definition U64_MAX : Z := 2 ^ 64 - 1.

Definition EINVAL : Z := 22.
Definition EFAULT : Z := 14.
Definition EPOLLIN : Z := 1.      (* 0x0001 *)
Definition EPOLLRDNORM : Z := 64. (* 0x0040 *)

(** ** The device structure *)

Record simtemp_dev := mk_simtemp_dev {
  enabled      : bool;
  sampling_hz  : Z;     (* u32 *)
  temp_mc      : Z;     (* int *)
  threshold_mc : Z;     (* int *)
  data_ready   : bool;
  sample_count : Z      (* u64 *)
}.

Inductive field :=
| Fenabled | Fsampling_hz | Ftemp_mc | Fthreshold_mc | Fdata_ready | Fsample_count.

(** An assignment to one field of the structure. *)
Inductive write :=
| Wenabled (b : bool)
| Wsampling_hz (v : Z)
| Wtemp_mc (v : Z)
| Wthreshold_mc (v : Z)
| Wdata_ready (b : bool)
| Wsample_count (v : Z).

Definition field_of_write (w : write) : field :=
  match w with
  | Wenabled _ => Fenabled
  | Wsampling_hz _ => Fsampling_hz
  | Wtemp_mc _ => Ftemp_mc
  | Wthreshold_mc _ => Fthreshold_mc
  | Wdata_ready _ => Fdata_ready
  | Wsample_count _ => Fsample_count
  end.

Definition apply_write (w : write) (sd : simtemp_dev) : simtemp_dev :=
  match w with
  | Wenabled b =>
      mk_simtemp_dev b (sampling_hz sd) (temp_mc sd) (threshold_mc sd)
                     (data_ready sd) (sample_count sd)
  | Wsampling_hz v =>
      mk_simtemp_dev (enabled sd) v (temp_mc sd) (threshold_mc sd)
                     (data_ready sd) (sample_count sd)
  | Wtemp_mc v =>
      mk_simtemp_dev (enabled sd) (sampling_hz sd) v (threshold_mc sd)
                     (data_ready sd) (sample_count sd)
  | Wthreshold_mc v =>
      mk_simtemp_dev (enabled sd) (sampling_hz sd) (temp_mc sd) v
                     (data_ready sd) (sample_count sd)
  | Wdata_ready b =>
      mk_simtemp_dev (enabled sd) (sampling_hz sd) (temp_mc sd)
                     (threshold_mc sd) b (sample_count sd)
  | Wsample_count v =>
      mk_simtemp_dev (enabled sd) (sampling_hz sd) (temp_mc sd)
                     (threshold_mc sd) (data_ready sd) v
  end.

(** ** Events and the monad *)

Inductive event :=
| EvLock                       (* spin_lock_irqsave(&sd->lock, flags) *)
| EvUnlock                     (* spin_unlock_irqrestore(&sd->lock, flags) *)
| EvRead (f : field)           (* a load of sd->f *)
| EvWrite (w : write)          (* a store to a field of *sd *)
| EvWakeUp                     (* wake_up_interruptible(&sd->wq) *)
| EvPollWait                   (* poll_wait(f, &sd->wq, wait) *)
| EvSchedule (delay : Z)       (* schedule_delayed_work(&sd->work, delay) *)
| EvModDelayed (delay : Z)     (* mod_delayed_work(system_wq, &sd->work, delay) *)
| EvCancelSync                 (* cancel_delayed_work_sync(&sd->work) *)
| EvCopyToUser (data : string) (* the bytes copy_to_user put in the user buffer *)
| EvDivideError.               (* a division by zero that traps: the thread dies *)

Definition trace := list event.

Definition M (A : Type) : Type := simtemp_dev -> A * simtemp_dev * trace.

Definition ret {A} (a : A) : M A := fun sd => (a, sd, []).

Definition bind {A B} (m : M A) (k : A -> M B) : M B :=
  fun sd =>
    let '(a, sd1, t1) := m sd in
    let '(b, sd2, t2) := k a sd1 in
    (b, sd2, t1 ++ t2).

Notation "x <- m ;; k" := (bind m (fun x => k))
  (at level 61, m at next level, right associativity).
Notation "m ;; k" := (bind m (fun _ => k))
  (at level 61, right associativity).

Definition emit (e : event) : M unit := fun sd => (tt, sd, [e]).

(** [sd->f] as an rvalue. *)
Definition load {A} (f : field) (get : simtemp_dev -> A) : M A :=
  fun sd => (get sd, sd, [EvRead f]).

(** [sd->f = v]. *)
Definition store (w : write) : M unit :=
  fun sd => (tt, apply_write w sd, [EvWrite w]).

Definition spin_lock_irqsave : M unit := emit EvLock.
Definition spin_unlock_irqrestore : M unit := emit EvUnlock.
Definition wake_up_interruptible : M unit := emit EvWakeUp.
Definition poll_wait : M unit := emit EvPollWait.
Definition schedule_delayed_work (delay : Z) : M unit := emit (EvSchedule delay).
Definition mod_delayed_work (delay : Z) : M unit := emit (EvModDelayed delay).
Definition cancel_delayed_work_sync : M unit := emit EvCancelSync.

Definition result {A} (x : A * simtemp_dev * trace) : A := fst (fst x).
Definition final {A} (x : A * simtemp_dev * trace) : simtemp_dev := snd (fst x).
Definition events {A} (x : A * simtemp_dev * trace) : trace := snd x.

(** ** Formatted output

    [vsnprintf] is the kernel's; only [%d] and [%u] of a 32-bit value are
    used, which have at most ten digits. *)

Definition digit_char (d : Z) : ascii := ascii_of_nat (48 + Z.to_nat d).

Fixpoint format_digits (fuel : nat) (n : Z) (acc : string) : string :=
  match fuel with
  | O => acc
  | S fuel' =>
      let acc' := String (digit_char (n mod 10)) acc in
      if n / 10 =? 0 then acc' else format_digits fuel' (n / 10) acc'
  end.

(** ["%u"] *)
Definition format_u (n : Z) : string := format_digits 10 n EmptyString.

(** ["%d"] *)
Definition format_d (n : Z) : string :=
  if n <? 0 then String "-"%char (format_u (- n)) else format_u n.

Definition newline : string := String (ascii_of_nat 10) EmptyString.

Definition strlen (s : string) : Z := Z.of_nat (String.length s).

(** [scnprintf(buf, size, ...)]: the formatted text cut to [size - 1]
    characters; the text stored and the number of characters stored. *)
Definition scnprintf (size : nat) (text : string) : string * Z :=
  let kbuf := substring 0 (size - 1) text in (kbuf, strlen kbuf).

(** [sysfs_emit(buf, ...)]: the text put in the page and its length. *)
Definition sysfs_emit (text : string) : string * Z := (text, strlen text).

(** [copy_to_user(buf, kbuf, n)] when [avail] bytes at [buf] are writable:
    the bytes that reached user memory and the number of bytes that could
    not be copied. *)
Definition copy_to_user (avail : nat) (kbuf : string) : M Z :=
  fun sd =>
    let copied := substring 0 avail kbuf in
    (strlen kbuf - strlen copied, sd, [EvCopyToUser copied]).

(** ** The driver *)

Section Driver.

(** [msecs_to_jiffies] is the kernel's and depends on its tick rate. *)
Variable msecs_to_jiffies : Z -> Z.

(** What the target makes of an unsigned division by zero, which C leaves
    undefined: [None] where the instruction traps (x86), [Some q] where it
    yields [q] (0 on ARM and AArch64). *)
Variable div_by_zero : option Z.

(** [a / b] on unsigned operands. *)
Definition udiv (a b : Z) : option Z :=
  if b =? 0 then div_by_zero else Some (a / b).

(** The jitter of one cycle from the 32 random bits [r]:
    [((int)(r % 1001)) - 500]. *)
Definition jitter (r : Z) : Z := u32 r mod 1001 - 500.

(** [simtemp_update_fn], the body of the delayed work; [r] is what
    [get_random_bytes(&r, sizeof(r))] delivers. *)
Definition simtemp_update_fn (r : Z) : M unit :=
  let delta := jitter r in
  spin_lock_irqsave ;;
  en <- load Fenabled enabled ;;
  if negb en then
    spin_unlock_irqrestore
  else
    store (Wtemp_mc (40000 + delta)) ;;
    c <- load Fsample_count sample_count ;;
    store (Wsample_count (u64 (c + 1))) ;;
    store (Wdata_ready true) ;;
    t <- load Ftemp_mc temp_mc ;;
    th <- load Fthreshold_mc threshold_mc ;;
    (if th <=? t then wake_up_interruptible else wake_up_interruptible) ;;
    hz <- load Fsampling_hz sampling_hz ;;
    match udiv 1000 hz with
    | None => emit EvDivideError  (* the trap, with the lock still held *)
    | Some q =>
        let delay := msecs_to_jiffies q in
        spin_unlock_irqrestore ;;
        schedule_delayed_work delay
    end.

Definition temp_line (t : Z) : string :=
  ("temp_mc=" ++ format_d t ++ newline)%string.

(** [st_read]: [avail] is how many bytes at [buf] are writable, [len] the
    [size_t] length asked for and [ppos] the value of [*ppos]; the result
    is the return value and the new [*ppos]. *)
Definition st_read (avail : nat) (len ppos : Z) : M (Z * Z) :=
  t <- load Ftemp_mc temp_mc ;;
  let '(kbuf, n) := scnprintf 64 (temp_line t) in
  if negb (ppos =? 0) then ret (0, ppos)
  else if len <? n then ret (- EINVAL, ppos)
  else
    r <- copy_to_user avail kbuf ;;
    if negb (r =? 0) then ret (- EFAULT, ppos)
    else ret (n, n).

(** [st_poll]: the returned mask. *)
Definition st_poll : M Z :=
  let mask := 0 in
  poll_wait ;;
  spin_lock_irqsave ;;
  dr <- load Fdata_ready data_ready ;;
  mask <- (if dr then
             store (Wdata_ready false) ;;
             ret (Z.lor mask (Z.lor EPOLLIN EPOLLRDNORM))
           else ret mask) ;;
  spin_unlock_irqrestore ;;
  ret mask.

(** The sysfs store functions take the outcome of [kstrtouint(buf, 0, &v)]
    (resp. [kstrtoint]): [None] when it reports an error, [Some v] with the
    parsed number otherwise; [count] is the length of the written text. *)

Definition enable_show : M (string * Z) :=
  en <- load Fenabled enabled ;;
  ret (sysfs_emit (format_d (if en then 1 else 0) ++ newline)).

Definition enable_store (parsed : option Z) (count : Z) : M Z :=
  match parsed with
  | None => ret (- EINVAL)
  | Some v =>
      spin_lock_irqsave ;;
      store (Wenabled (negb (v =? 0))) ;;
      spin_unlock_irqrestore ;;
      en <- load Fenabled enabled ;;
      (if en then mod_delayed_work 0 else cancel_delayed_work_sync) ;;
      ret count
  end.

Definition sampling_hz_show : M (string * Z) :=
  hz <- load Fsampling_hz sampling_hz ;;
  ret (sysfs_emit (format_u hz ++ newline)).

Definition sampling_hz_store (parsed : option Z) (count : Z) : M Z :=
  match parsed with
  | None => ret (- EINVAL)
  | Some v =>
      if (v <? 1) || (v >? 100) then ret (- EINVAL)
      else
        store (Wsampling_hz v) ;;
        ret count
  end.

Definition threshold_mc_show : M (string * Z) :=
  th <- load Fthreshold_mc threshold_mc ;;
  ret (sysfs_emit (format_d th ++ newline)).

Definition threshold_mc_store (parsed : option Z) (count : Z) : M Z :=
  match parsed with
  | None => ret (- EINVAL)
  | Some v =>
      store (Wthreshold_mc v) ;;
      ret count
  end.

Definition temp_mc_show : M (string * Z) :=
  t <- load Ftemp_mc temp_mc ;;
  ret (sysfs_emit (format_d t ++ newline)).

(** What the first compatible device-tree node provides, if anything. *)
Record dt_node := mk_dt_node {
  dt_sampling_hz  : option Z;   (* "sampling-hz", u32 *)
  dt_threshold_mc : option Z    (* "threshold-mc", u32 *)
}.

(** [st_init] when the allocation and [misc_register] succeed: the zeroed
    structure with the defaults, overridden from the device tree.  ([dt] is
    [None] when there is no populated tree or no compatible node.)  The
    assignments to [sd->rng_seed] name a member the structure does not
    declare and have nothing to act on here. *)
Definition st_init (dt : option dt_node) : simtemp_dev :=
  let sd := mk_simtemp_dev false 0 0 0 false 0 in
  let sd := apply_write (Wenabled false) sd in
  let sd := apply_write (Wsampling_hz 2) sd in
  let sd := apply_write (Wtemp_mc 40000) sd in
  let sd := apply_write (Wthreshold_mc 45000) sd in
  match dt with
  | None => sd
  | Some np =>
      let sd := match dt_sampling_hz np with
                | Some val => apply_write (Wsampling_hz (u32 val)) sd
                | None => sd
                end in
      match dt_threshold_mc np with
      | Some val => apply_write (Wthreshold_mc (int32 (u32 val))) sd
      | None => sd
      end
  end.

(** ** The device together with its work queue entry

    [work] is the state of [sd->work]: [Some d] when the delayed work is
    pending with delay [d] (in jiffies), [None] when it is idle. *)

Record system := mk_system {
  dev  : simtemp_dev;
  work : option Z
}.

(** The work queue calls, as the kernel defines them: scheduling a work
    that is already pending changes nothing, [mod_delayed_work] replaces
    the timer, [cancel_delayed_work_sync] leaves the work idle. *)
Definition workqueue (w : option Z) (e : event) : option Z :=
  match e with
  | EvSchedule d => match w with None => Some d | Some _ => w end
  | EvModDelayed d => Some d
  | EvCancelSync => None
  | _ => w
  end.

Definition run_workqueue (t : trace) (w : option Z) : option Z :=
  fold_left workqueue t w.

Definition is_divide_error (e : event) : bool :=
  match e with EvDivideError => true | _ => false end.

(** A driver function run to completion on the system.  A [system] is the
    device between two operations, with the lock free; when a division
    traps, the thread dies holding the lock and the run ends there, with no
    successor. *)
Definition exec {A} (m : M A) (s : system) : option system :=
  let '(_, sd, t) := m (dev s) in
  if existsb is_divide_error t then None
  else Some (mk_system sd (run_workqueue t (work s))).

Inductive op :=
| OpWork (r : Z)                               (* the timer of sd->work expires *)
| OpRead (avail : nat) (len ppos : Z)
| OpPoll
| OpEnableShow
| OpEnableStore (parsed : option Z) (count : Z)
| OpSamplingHzShow
| OpSamplingHzStore (parsed : option Z) (count : Z)
| OpThresholdShow
| OpThresholdStore (parsed : option Z) (count : Z)
| OpTempShow.

(** One operation on the system.  The work runs only when it is pending,
    and is no longer pending once it runs; [None] also stands for a trap
    in the operation (see [exec]). *)
Definition sys_step (o : op) (s : system) : option system :=
  match o with
  | OpWork r =>
      match work s with
      | None => None
      | Some _ => exec (simtemp_update_fn r) (mk_system (dev s) None)
      end
  | OpRead avail len ppos => exec (st_read avail len ppos) s
  | OpPoll => exec st_poll s
  | OpEnableShow => exec enable_show s
  | OpEnableStore parsed count => exec (enable_store parsed count) s
  | OpSamplingHzShow => exec sampling_hz_show s
  | OpSamplingHzStore parsed count => exec (sampling_hz_store parsed count) s
  | OpThresholdShow => exec threshold_mc_show s
  | OpThresholdStore parsed count => exec (threshold_mc_store parsed count) s
  | OpTempShow => exec temp_mc_show s
  end.

Fixpoint run (ops : list op) (s : system) : option system :=
  match ops with
  | [] => Some s
  | o :: ops' =>
      match sys_step o s with
      | Some s' => run ops' s'
      | None => None
      end
  end.

Inductive reachable : system -> Prop :=
| reach_init dt : reachable (mk_system (st_init dt) None)
| reach_step o s s' : reachable s -> sys_step o s = Some s' -> reachable s'.

(** ** Reading a trace *)

Definition holds_after (held : bool) (e : event) : bool :=
  match e with
  | EvLock => true
  | EvUnlock => false
  | _ => held
  end.

(** Every access to a field of the structure happens with the lock held. *)
Fixpoint accesses_locked (held : bool) (t : trace) : bool :=
  match t with
  | [] => true
  | e :: t' =>
      match e with
      | EvRead _ | EvWrite _ => held
      | _ => true
      end && accesses_locked (holds_after held e) t'
  end.

Definition apply_event (e : event) (sd : simtemp_dev) : simtemp_dev :=
  match e with
  | EvWrite w => apply_write w sd
  | _ => sd
  end.

(** The states of the structure at the points of a run where the lock is
    free: what a thread that takes the lock can find. *)
Fixpoint observable (held : bool) (sd : simtemp_dev) (t : trace) : list simtemp_dev :=
  (if held then [] else [sd]) ++
  match t with
  | [] => []
  | e :: t' => observable (holds_after held e) (apply_event e sd) t'
  end.

Definition is_lock (e : event) : bool :=
  match e with EvLock => true | _ => false end.

Definition is_wake (e : event) : bool :=
  match e with EvWakeUp => true | _ => false end.

Definition is_copy (e : event) : bool :=
  match e with EvCopyToUser _ => true | _ => false end.

(** The fields a run touches while the lock is free. *)
Fixpoint unlocked_accesses (held : bool) (t : trace) : list field :=
  match t with
  | [] => []
  | e :: t' =>
      match e with
      | EvRead f => if held then [] else [f]
      | EvWrite w => if held then [] else [field_of_write w]
      | _ => []
      end ++ unlocked_accesses (holds_after held e) t'
  end.

(** The log of an operation run on the structure [sd]. *)
Definition op_trace (o : op) (sd : simtemp_dev) : trace :=
  match o with
  | OpWork r => events (simtemp_update_fn r sd)
  | OpRead avail len ppos => events (st_read avail len ppos sd)
  | OpPoll => events (st_poll sd)
  | OpEnableShow => events (enable_show sd)
  | OpEnableStore parsed count => events (enable_store parsed count sd)
  | OpSamplingHzShow => events (sampling_hz_show sd)
  | OpSamplingHzStore parsed count => events (sampling_hz_store parsed count sd)
  | OpThresholdShow => events (threshold_mc_show sd)
  | OpThresholdStore parsed count => events (threshold_mc_store parsed count sd)
  | OpTempShow => events (temp_mc_show sd)
  end.

End Driver.

(** A tick rate of 1000: one jiffy per millisecond. *)
Definition jiffies_1000hz (ms : Z) : Z := ms.

(** The two targets: a division by zero traps, or yields 0. *)
Definition div_zero_traps : option Z := None.
Definition div_zero_yields_0 : option Z := Some 0.

(** The three stores of a producing cycle, composed. *)
Definition produced (r : Z) (sd : simtemp_dev) : simtemp_dev :=
  apply_write (Wdata_ready true)
    (apply_write (Wsample_count (u64 (sample_count sd + 1)))
       (apply_write (Wtemp_mc (40000 + jitter r)) sd)).

(** Whether the operation writes a non-zero value to [enable]. *)
Definition enables (o : op) : bool :=
  match o with
  | OpEnableStore (Some v) _ => negb (v =? 0)
  | _ => false
  end.

(** Disabled with no work pending. *)
Definition stopped (s : system) : Prop :=
  enabled (dev s) = false /\ work s = None.

(** The system right after [st_init]: nothing is pending yet. *)
Definition boot (dt : option dt_node) : system := mk_system (st_init dt) None.

(** The device tree gives no rate, or one that [sampling_hz_store] would
    accept too. *)
Definition dt_rate_valid (dt : option dt_node) : Prop :=
  match dt with
  | Some np =>
      match dt_sampling_hz np with
      | Some val => 1 <= u32 val <= 100
      | None => True
      end
  | None => True
  end.

(** * Properties *)

Ltac unfold_monad :=
  unfold spin_lock_irqsave, spin_unlock_irqrestore, wake_up_interruptible,
    poll_wait, schedule_delayed_work, mod_delayed_work,
    cancel_delayed_work_sync in *;
  unfold bind, ret, load, store, emit, result, final, events in *.

(** Runs the monad without touching the arithmetic. *)
Ltac run_monad :=
  unfold_monad; cbv beta iota zeta;
  cbn [app apply_write fst snd enabled sampling_hz temp_mc threshold_mc
       data_ready sample_count negb].

(** ** Machine integers and formatting *)

Example format_d_negative : format_d (-500) = "-500"%string.
Proof. reflexivity. Qed.

Example format_d_int_min : format_d (-2147483648) = "-2147483648"%string.
Proof. reflexivity. Qed.

Example format_u_u32_max : format_u 4294967295 = "4294967295"%string.
Proof. reflexivity. Qed.

Example temp_line_baseline :
  temp_line 40000 = ("temp_mc=40000" ++ newline)%string.
Proof. reflexivity. Qed.

Example int32_of_large_u32 : int32 (u32 4294967295) = -1.
Proof. reflexivity. Qed.

Lemma u64_small z : 0 <= z < 2 ^ 64 -> u64 z = z.
Proof. intros H. unfold u64. now apply Z.mod_small. Qed.

Lemma jitter_range r : -500 <= jitter r <= 500.
Proof.
  unfold jitter.
  pose proof (Z.mod_pos_bound (u32 r) 1001 ltac:(lia)). lia.
Qed.

(** The reading of a producing cycle is an [int]: the sum does not
    overflow. *)
Lemma reading_range r : 39500 <= 40000 + jitter r <= 40500.
Proof. pose proof (jitter_range r). lia. Qed.

Lemma format_digits_length fuel : forall n acc,
  (String.length (format_digits fuel n acc) <= fuel + String.length acc)%nat.
Proof.
  induction fuel as [|fuel IH]; intros n acc; simpl.
  - lia.
  - destruct (n / 10 =? 0).
    + simpl. lia.
    + specialize (IH (n / 10) (String (digit_char (n mod 10)) acc)).
      simpl in IH. lia.
Qed.

Lemma format_digits_nonempty fuel : forall n acc,
  (String.length acc <= String.length (format_digits fuel n acc))%nat.
Proof.
  induction fuel as [|fuel IH]; intros n acc; simpl.
  - lia.
  - destruct (n / 10 =? 0).
    + simpl. lia.
    + specialize (IH (n / 10) (String (digit_char (n mod 10)) acc)).
      simpl in IH. lia.
Qed.

Lemma format_digits_digit fuel n acc :
  (S (String.length acc) <= String.length (format_digits (S fuel) n acc))%nat.
Proof.
  cbn [format_digits]. destruct (n / 10 =? 0).
  - simpl. lia.
  - pose proof (format_digits_nonempty fuel (n / 10)
                  (String (digit_char (n mod 10)) acc)) as H.
    simpl String.length in H. lia.
Qed.

Lemma format_u_length n : (1 <= String.length (format_u n) <= 10)%nat.
Proof.
  unfold format_u.
  pose proof (format_digits_length 10 n EmptyString) as Hhi.
  pose proof (format_digits_digit 9 n EmptyString) as Hlo.
  cbn [String.length] in Hhi, Hlo. lia.
Qed.

Lemma format_d_length n : (1 <= String.length (format_d n) <= 11)%nat.
Proof.
  unfold format_d.
  destruct (n <? 0); cbn [String.length].
  - pose proof (format_u_length (- n)). lia.
  - pose proof (format_u_length n). lia.
Qed.

Lemma append_length (a b : string) :
  String.length (a ++ b) = (String.length a + String.length b)%nat.
Proof. induction a; simpl; congruence. Qed.

Lemma temp_line_length t : 10 <= strlen (temp_line t) <= 20.
Proof.
  unfold strlen, temp_line.
  rewrite !append_length. pose proof (format_d_length t).
  unfold newline. cbn [String.length]. lia.
Qed.

Lemma substring_all (s : string) : forall n,
  (String.length s <= n)%nat -> substring 0 n s = s.
Proof.
  induction s as [|c s IH]; intros [|n] H; simpl in *; try reflexivity; try lia.
  f_equal. apply IH. lia.
Qed.

Lemma substring_length (s : string) : forall n,
  String.length (substring 0 n s) = Nat.min n (String.length s).
Proof.
  induction s as [|c s IH]; intros [|n]; simpl; try reflexivity.
  now rewrite IH.
Qed.

(** The line always fits the 64-byte kernel buffer: nothing is cut. *)
Lemma scnprintf_temp_line t :
  scnprintf 64 (temp_line t) = (temp_line t, strlen (temp_line t)).
Proof.
  unfold scnprintf. rewrite substring_all; [reflexivity|].
  pose proof (temp_line_length t) as H. unfold strlen in H.
  change (64 - 1)%nat with 63%nat. lia.
Qed.

(** ** What each function does to the structure and the log *)

Lemma udiv_nonzero dz a b : b <> 0 -> udiv dz a b = Some (a / b).
Proof. intros H. unfold udiv. apply Z.eqb_neq in H. now rewrite H. Qed.

Lemma simtemp_update_fn_disabled j dz r sd :
  enabled sd = false ->
  simtemp_update_fn j dz r sd = (tt, sd, [EvLock; EvRead Fenabled; EvUnlock]).
Proof.
  intros H. unfold simtemp_update_fn. run_monad.
  rewrite H. run_monad. reflexivity.
Qed.

Lemma simtemp_update_fn_enabled j dz r sd :
  enabled sd = true ->
  simtemp_update_fn j dz r sd =
    (tt, produced r sd,
     [EvLock; EvRead Fenabled; EvWrite (Wtemp_mc (40000 + jitter r));
      EvRead Fsample_count; EvWrite (Wsample_count (u64 (sample_count sd + 1)));
      EvWrite (Wdata_ready true); EvRead Ftemp_mc; EvRead Fthreshold_mc;
      EvWakeUp; EvRead Fsampling_hz] ++
     match udiv dz 1000 (sampling_hz sd) with
     | None => [EvDivideError]
     | Some q => [EvUnlock; EvSchedule (j q)]
     end).
Proof.
  intros H. unfold simtemp_update_fn, produced. run_monad.
  rewrite H. run_monad.
  destruct (threshold_mc sd <=? 40000 + jitter r); run_monad;
    destruct (udiv dz 1000 (sampling_hz sd)); run_monad; rewrite ?H;
    reflexivity.
Qed.

Lemma st_read_spec avail len ppos sd :
  let line := temp_line (temp_mc sd) in
  let n := strlen line in
  st_read avail len ppos sd =
    if negb (ppos =? 0) then ((0, ppos), sd, [EvRead Ftemp_mc])
    else if len <? n then ((- EINVAL, ppos), sd, [EvRead Ftemp_mc])
    else if Z.of_nat avail <? n then
      ((- EFAULT, ppos), sd, [EvRead Ftemp_mc; EvCopyToUser (substring 0 avail line)])
    else ((n, n), sd, [EvRead Ftemp_mc; EvCopyToUser line]).
Proof.
  intros line n. unfold st_read. unfold_monad.
  rewrite scnprintf_temp_line. fold line. fold n.
  destruct (negb (ppos =? 0)); [reflexivity|].
  destruct (len <? n); [reflexivity|].
  unfold copy_to_user. cbv beta iota zeta.
  assert (Hr : (strlen line - strlen (substring 0 avail line) =? 0)
               = negb (Z.of_nat avail <? n)).
  { unfold n, strlen. rewrite substring_length.
    destruct (Z.of_nat avail <? Z.of_nat (String.length line)) eqn:Ha.
    - apply Z.ltb_lt in Ha. apply Z.eqb_neq. lia.
    - apply Z.ltb_ge in Ha. apply Z.eqb_eq. lia. }
  rewrite Hr.
  destruct (Z.of_nat avail <? n) eqn:Ha; cbn [negb app].
  - reflexivity.
  - apply Z.ltb_ge in Ha. rewrite substring_all; [reflexivity|].
    unfold n, strlen in Ha. lia.
Qed.

Lemma st_poll_spec sd :
  st_poll sd =
    if data_ready sd then
      (Z.lor EPOLLIN EPOLLRDNORM, apply_write (Wdata_ready false) sd,
       [EvPollWait; EvLock; EvRead Fdata_ready; EvWrite (Wdata_ready false); EvUnlock])
    else (0, sd, [EvPollWait; EvLock; EvRead Fdata_ready; EvUnlock]).
Proof.
  unfold st_poll. unfold_monad. destruct (data_ready sd); reflexivity.
Qed.

Lemma enable_store_spec parsed count sd :
  enable_store parsed count sd =
    match parsed with
    | None => (- EINVAL, sd, [])
    | Some v =>
        let b := negb (v =? 0) in
        (count, apply_write (Wenabled b) sd,
         [EvLock; EvWrite (Wenabled b); EvUnlock; EvRead Fenabled;
          if b then EvModDelayed 0 else EvCancelSync])
    end.
Proof.
  destruct parsed as [v|]; [|reflexivity].
  unfold enable_store. unfold_monad. simpl.
  destruct (negb (v =? 0)); reflexivity.
Qed.

Lemma sampling_hz_store_spec parsed count sd :
  sampling_hz_store parsed count sd =
    match parsed with
    | None => (- EINVAL, sd, [])
    | Some v =>
        if (v <? 1) || (v >? 100) then (- EINVAL, sd, [])
        else (count, apply_write (Wsampling_hz v) sd, [EvWrite (Wsampling_hz v)])
    end.
Proof.
  destruct parsed as [v|]; [|reflexivity].
  unfold sampling_hz_store. unfold_monad.
  destruct ((v <? 1) || (v >? 100)); reflexivity.
Qed.

Lemma threshold_mc_store_spec parsed count sd :
  threshold_mc_store parsed count sd =
    match parsed with
    | None => (- EINVAL, sd, [])
    | Some v => (count, apply_write (Wthreshold_mc v) sd, [EvWrite (Wthreshold_mc v)])
    end.
Proof. destruct parsed; reflexivity. Qed.

(** ** Locking of the functions that take the lock *)

Lemma simtemp_update_fn_locked j dz r sd :
  accesses_locked false (events (simtemp_update_fn j dz r sd)) = true.
Proof.
  destruct (enabled sd) eqn:He.
  - rewrite (simtemp_update_fn_enabled j dz r sd He).
    unfold events. cbn [snd].
    destruct (udiv dz 1000 (sampling_hz sd)); reflexivity.
  - now rewrite (simtemp_update_fn_disabled j dz r sd He).
Qed.

Lemma st_poll_locked sd : accesses_locked false (events (st_poll sd)) = true.
Proof. rewrite st_poll_spec. destruct (data_ready sd); reflexivity. Qed.

(** Whatever the operation, [data_ready] and [sample_count] are never
    touched with the lock free: the paths that skip the lock reach
    [enabled], [sampling_hz], [temp_mc] and [threshold_mc] only. *)
Lemma flag_and_counter_locked j dz o sd f :
  In f (unlocked_accesses false (op_trace j dz o sd)) ->
  f <> Fdata_ready /\ f <> Fsample_count.
Proof.
  destruct o; unfold op_trace.
  - destruct (enabled sd) eqn:He.
    + rewrite (simtemp_update_fn_enabled j dz r sd He). unfold events. cbn [snd].
      destruct (udiv dz 1000 (sampling_hz sd)); cbn; tauto.
    + rewrite (simtemp_update_fn_disabled j dz r sd He). cbn. tauto.
  - rewrite st_read_spec. cbv zeta.
    destruct (negb (ppos =? 0)); [|destruct (len <? _);
      [|destruct (Z.of_nat avail <? _)]];
      cbn; intros [<-|[]]; split; discriminate.
  - rewrite st_poll_spec. destruct (data_ready sd); cbn; tauto.
  - cbn. intros [<-|[]]; split; discriminate.
  - rewrite enable_store_spec. destruct parsed as [v|]; [|cbn; tauto].
    cbv zeta. destruct (negb (v =? 0)); cbn;
      intros [<-|[]]; split; discriminate.
  - cbn. intros [<-|[]]; split; discriminate.
  - rewrite sampling_hz_store_spec. destruct parsed as [v|]; [|cbn; tauto].
    destruct ((v <? 1) || (v >? 100)); cbn; [tauto|].
    intros [<-|[]]; split; discriminate.
  - cbn. intros [<-|[]]; split; discriminate.
  - rewrite threshold_mc_store_spec. destruct parsed as [v|]; cbn; [|tauto].
    intros [<-|[]]; split; discriminate.
  - cbn. intros [<-|[]]; split; discriminate.
Qed.

(** ** The producing cycle *)

(** C1: a cycle of [simtemp_update_fn] that finds the device enabled draws
    a jitter in [-500, 500], stores [temp_mc = 40000 + jitter], increments
    [sample_count] by one (as a [u64]) and sets [data_ready]; it takes the
    lock once, touches the structure only with the lock held, and the only
    states of the structure to be found while the lock is free are the one
    before the cycle and the one with all three stores done. *)
Theorem simtemp_update_fn_produces_atomically
    (j : Z -> Z) (dz : option Z) (r : Z) (sd : simtemp_dev) :
  enabled sd = true ->
  let cycle := simtemp_update_fn j dz r sd in
  -500 <= jitter r <= 500 /\
  temp_mc (final cycle) = 40000 + jitter r /\
  sample_count (final cycle) = u64 (sample_count sd + 1) /\
  (0 <= sample_count sd < U64_MAX ->
   sample_count (final cycle) = sample_count sd + 1) /\
  data_ready (final cycle) = true /\
  enabled (final cycle) = enabled sd /\
  sampling_hz (final cycle) = sampling_hz sd /\
  threshold_mc (final cycle) = threshold_mc sd /\
  List.length (filter is_lock (events cycle)) = 1%nat /\
  accesses_locked false (events cycle) = true /\
  forall o, In o (observable false sd (events cycle)) ->
            o = sd \/ o = final cycle.
Proof.
  intros He cycle.
  pose proof (simtemp_update_fn_locked j dz r sd) as Hlocked.
  fold cycle in Hlocked.
  unfold cycle in *. clear cycle.
  rewrite (simtemp_update_fn_enabled j dz r sd He) in *.
  unfold final, events. cbn [fst snd].
  repeat split; try reflexivity.
  - apply jitter_range.
  - apply jitter_range.
  - intros Hc. cbn. apply u64_small. unfold U64_MAX in Hc. lia.
  - destruct (udiv dz 1000 (sampling_hz sd)); reflexivity.
  - exact Hlocked.
  - intros o Ho.
    destruct (udiv dz 1000 (sampling_hz sd)); cbn in Ho; unfold produced; cbn;
      intuition auto.
Qed.

Lemma simtemp_update_fn_produces_atomically_witness :
  let sd := mk_simtemp_dev true 2 40000 45000 false 0 in
  enabled sd = true /\
  temp_mc (final (simtemp_update_fn jiffies_1000hz div_zero_traps 7 sd)) = 39507 /\
  sample_count (final (simtemp_update_fn jiffies_1000hz div_zero_traps 7 sd)) = 1.
Proof.
  split; [reflexivity|].
  pose proof (simtemp_update_fn_produces_atomically jiffies_1000hz div_zero_traps 7
                (mk_simtemp_dev true 2 40000 45000 false 0) eq_refl) as H.
  cbv zeta in H.
  destruct H as (_ & Ht & Hc & _).
  split; [exact Ht | exact Hc].
Defined.

(** ** One step of the system, in closed form *)

Lemma sys_step_spec j dz o s :
  sys_step j dz o s =
    match o with
    | OpWork r =>
        match work s with
        | None => None
        | Some _ =>
            if enabled (dev s) then
              match udiv dz 1000 (sampling_hz (dev s)) with
              | None => None
              | Some q => Some (mk_system (produced r (dev s)) (Some (j q)))
              end
            else Some (mk_system (dev s) None)
        end
    | OpPoll =>
        Some (mk_system (if data_ready (dev s)
                         then apply_write (Wdata_ready false) (dev s)
                         else dev s) (work s))
    | OpEnableStore (Some v) _ =>
        Some (mk_system (apply_write (Wenabled (negb (v =? 0))) (dev s))
                        (if negb (v =? 0) then Some 0 else None))
    | OpSamplingHzStore (Some v) _ =>
        Some (mk_system (if (v <? 1) || (v >? 100) then dev s
                         else apply_write (Wsampling_hz v) (dev s)) (work s))
    | OpThresholdStore (Some v) _ =>
        Some (mk_system (apply_write (Wthreshold_mc v) (dev s)) (work s))
    | _ => Some s
    end.
Proof.
  destruct s as [sd w]. destruct o; unfold sys_step, exec; cbn [dev work].
  - destruct w as [d|]; [|reflexivity].
    destruct (enabled sd) eqn:He.
    + rewrite (simtemp_update_fn_enabled j dz r sd He).
      destruct (udiv dz 1000 (sampling_hz sd)); reflexivity.
    + now rewrite (simtemp_update_fn_disabled j dz r sd He).
  - rewrite st_read_spec. cbv zeta.
    destruct (negb (ppos =? 0)); [reflexivity|].
    destruct (len <? _); [reflexivity|].
    destruct (Z.of_nat avail <? _); reflexivity.
  - rewrite st_poll_spec. destruct (data_ready sd); reflexivity.
  - reflexivity.
  - rewrite enable_store_spec. destruct parsed as [v|]; [|reflexivity].
    cbv zeta. destruct (negb (v =? 0)); reflexivity.
  - reflexivity.
  - rewrite sampling_hz_store_spec. destruct parsed as [v|]; [|reflexivity].
    destruct ((v <? 1) || (v >? 100)); reflexivity.
  - reflexivity.
  - rewrite threshold_mc_store_spec. destruct parsed as [v|]; reflexivity.
  - reflexivity.
Qed.

(** The only steps without a successor: the work when it is not pending,
    and a cycle that divides by a zero rate on a target where that traps. *)
Lemma sys_step_none_iff j dz o s :
  sys_step j dz o s = None <->
  exists r, o = OpWork r /\
            (work s = None \/
             (enabled (dev s) = true /\ sampling_hz (dev s) = 0 /\ dz = None)).
Proof.
  rewrite sys_step_spec. split.
  - destruct o; try discriminate;
      try (destruct parsed; discriminate).
    intros H. exists r. split; [reflexivity|].
    destruct (work s) as [d|]; [right | now left].
    destruct (enabled (dev s)); [|discriminate].
    unfold udiv in H. destruct (sampling_hz (dev s) =? 0) eqn:H0;
      [|discriminate].
    apply Z.eqb_eq in H0. destruct dz; [discriminate|]. auto.
  - intros (r & -> & [Hw | (He & Hhz & ->)]).
    + now rewrite Hw.
    + destruct (work s); [|reflexivity]. now rewrite He, Hhz.
Qed.

Lemma stopped_step j dz o s s' :
  stopped s -> enables o = false -> sys_step j dz o s = Some s' ->
  stopped s' /\ sample_count (dev s') = sample_count (dev s) /\
  temp_mc (dev s') = temp_mc (dev s) /\
  (data_ready (dev s') = true -> data_ready (dev s) = true).
Proof.
  intros [He Hw] Hno Hstep. rewrite sys_step_spec in Hstep.
  destruct s as [sd w]. cbn [dev work] in *. subst w.
  unfold stopped.
  destruct o; cbn in Hno; try discriminate Hstep;
    try (injection Hstep as <-; cbn [dev work]; now auto).
  - destruct (data_ready sd) eqn:Hd; injection Hstep as <-; cbn;
      repeat split; auto; congruence.
  - destruct parsed as [v|]; injection Hstep as <-; cbn [dev work].
    + rewrite Hno. cbn. auto.
    + auto.
  - destruct parsed as [v|]; injection Hstep as <-; cbn [dev work]; auto.
    destruct ((v <? 1) || (v >? 100)); cbn; auto.
  - destruct parsed as [v|]; injection Hstep as <-; cbn [dev work]; auto.
Qed.

Lemma stopped_run j dz ops : forall s s',
  stopped s -> forallb (fun o => negb (enables o)) ops = true ->
  run j dz ops s = Some s' ->
  stopped s' /\ sample_count (dev s') = sample_count (dev s) /\
  temp_mc (dev s') = temp_mc (dev s) /\
  (data_ready (dev s') = true -> data_ready (dev s) = true).
Proof.
  induction ops as [|o ops IH]; intros s s' Hs Hno Hrun; cbn in *.
  - injection Hrun as <-. auto.
  - apply andb_prop in Hno. destruct Hno as [Ho Hno].
    apply negb_true_iff in Ho.
    destruct (sys_step j dz o s) as [s1|] eqn:Hstep; [|discriminate].
    destruct (stopped_step j dz o s s1 Hs Ho Hstep) as (Hs1 & Hc & Ht & Hd).
    destruct (IH s1 s' Hs1 Hno Hrun) as (Hs' & Hc' & Ht' & Hd').
    repeat split; try apply Hs'; try congruence. auto.
Qed.

(** In a reachable state a disabled device has no work pending. *)
Lemma reachable_disabled_idle j dz s :
  reachable j dz s -> enabled (dev s) = false -> work s = None.
Proof.
  induction 1 as [dt | o s s' Hr IH Hstep].
  - reflexivity.
  - rewrite sys_step_spec in Hstep. destruct s as [sd w]. cbn [dev work] in *.
    destruct o; try (injection Hstep as <-; exact IH).
    + destruct w as [d|]; [|discriminate].
      destruct (enabled sd) eqn:He.
      * destruct (udiv dz 1000 (sampling_hz sd)) as [q|]; [|discriminate].
        injection Hstep as <-. cbn. rewrite He. discriminate.
      * injection Hstep as <-. reflexivity.
    + injection Hstep as <-. cbn [dev work].
      destruct (data_ready sd); exact IH.
    + destruct parsed as [v|]; injection Hstep as <-; [|exact IH].
      cbn. intros ->. reflexivity.
    + destruct parsed as [v|]; injection Hstep as <-; [|exact IH].
      cbn [dev work]. destruct ((v <? 1) || (v >? 100)); exact IH.
    + destruct parsed as [v|]; injection Hstep as <-; exact IH.
Qed.

(** In a reachable state the counter is a [u64] and the reading lies within
    the jitter around the baseline. *)
Lemma reachable_ranges j dz s :
  reachable j dz s ->
  0 <= sample_count (dev s) < 2 ^ 64 /\ 39500 <= temp_mc (dev s) <= 40500.
Proof.
  induction 1 as [dt | o s s' Hr IH Hstep].
  - destruct dt as [[[hz|] [th|]]|]; cbn; lia.
  - rewrite sys_step_spec in Hstep. destruct s as [sd w]. cbn [dev work] in *.
    destruct o; try (injection Hstep as <-; exact IH).
    + destruct w as [d|]; [|discriminate].
      destruct (enabled sd).
      * destruct (udiv dz 1000 (sampling_hz sd)) as [q|]; [|discriminate].
        injection Hstep as <-. cbn [dev produced apply_write sample_count temp_mc].
        split; [apply Z.mod_pos_bound; lia | apply reading_range].
      * injection Hstep as <-. exact IH.
    + injection Hstep as <-. cbn [dev]. destruct (data_ready sd); exact IH.
    + destruct parsed as [v|]; injection Hstep as <-; exact IH.
    + destruct parsed as [v|]; injection Hstep as <-; [|exact IH].
      cbn [dev]. destruct ((v <? 1) || (v >? 100)); exact IH.
    + destruct parsed as [v|]; injection Hstep as <-; exact IH.
Qed.

(** ** Disabling *)

(** C2: writing 0 to [enable] leaves the device disabled with its work
    cancelled.  From then on, as long as nothing writes a non-zero value to
    [enable], the work cannot fire, and whatever else runs leaves
    [sample_count] and [temp_mc] as they are and does not raise
    [data_ready].  A cycle that finds [enabled] false takes the lock, reads
    the flag, releases the lock and returns: no store, no wake-up, no
    rescheduling. *)
Theorem no_sample_after_disable (j : Z -> Z) (dz : option Z) (s : system) (count : Z) :
  exists s1,
    sys_step j dz (OpEnableStore (Some 0) count) s = Some s1 /\
    stopped s1 /\
    (forall ops s2,
        forallb (fun o => negb (enables o)) ops = true ->
        run j dz ops s1 = Some s2 ->
        stopped s2 /\
        (forall r, sys_step j dz (OpWork r) s2 = None) /\
        sample_count (dev s2) = sample_count (dev s1) /\
        temp_mc (dev s2) = temp_mc (dev s1) /\
        (data_ready (dev s2) = true -> data_ready (dev s1) = true)) /\
    (forall r sd,
        enabled sd = false ->
        simtemp_update_fn j dz r sd = (tt, sd, [EvLock; EvRead Fenabled; EvUnlock])).
Proof.
  eexists. split; [rewrite sys_step_spec; reflexivity|].
  assert (Hs1 : stopped (mk_system (apply_write (Wenabled (negb (0 =? 0))) (dev s))
                                   (if negb (0 =? 0) then Some 0 else None))).
  { split; reflexivity. }
  split; [exact Hs1|]. split.
  - intros ops s2 Hno Hrun.
    destruct (stopped_run j dz ops _ s2 Hs1 Hno Hrun) as (Hs2 & Hc & Ht & Hd).
    repeat split; try apply Hs2; auto.
    intros r. rewrite sys_step_spec. destruct Hs2 as [_ ->]. reflexivity.
  - intros r sd. apply simtemp_update_fn_disabled.
Qed.

Lemma no_sample_after_disable_witness :
  let s := mk_system (mk_simtemp_dev true 2 40123 45000 true 7) (Some 500) in
  exists s1,
    sys_step jiffies_1000hz div_zero_traps (OpEnableStore (Some 0) 2) s = Some s1 /\
    forall s2,
      run jiffies_1000hz div_zero_traps [OpPoll; OpSamplingHzStore (Some 10) 3; OpTempShow] s1
        = Some s2 ->
      sample_count (dev s2) = 7.
Proof.
  intros s.
  destruct (no_sample_after_disable jiffies_1000hz div_zero_traps s 2) as (s1 & Hstep & _ & Hrun & _).
  exists s1. split; [exact Hstep|].
  intros s2 H2.
  destruct (Hrun [OpPoll; OpSamplingHzStore (Some 10) 3; OpTempShow] s2
              eq_refl H2) as (_ & _ & Hc & _).
  rewrite Hc. rewrite sys_step_spec in Hstep. injection Hstep as <-.
  reflexivity.
Defined.

(** ** The ready flag *)

(** C6: in every step of the system, [data_ready] goes from true to false
    only in [st_poll], and from false to true only in a cycle of the work
    that found the device enabled and produced a sample in that same
    step. *)
Theorem data_ready_transitions (j : Z -> Z) (dz : option Z) (o : op) (s s' : system) :
  sys_step j dz o s = Some s' ->
  (data_ready (dev s) = true -> data_ready (dev s') = false -> o = OpPoll) /\
  (data_ready (dev s) = false -> data_ready (dev s') = true ->
   exists r, o = OpWork r /\ enabled (dev s) = true /\
             dev s' = produced r (dev s) /\
             temp_mc (dev s') = 40000 + jitter r /\
             sample_count (dev s') = u64 (sample_count (dev s) + 1)).
Proof.
  intros Hstep. rewrite sys_step_spec in Hstep.
  destruct s as [sd w]. cbn [dev work] in *.
  destruct o;
    try (injection Hstep as <-; cbn [dev]; split; congruence).
  - destruct w as [d|]; [|discriminate].
    destruct (enabled sd) eqn:He.
    + destruct (udiv dz 1000 (sampling_hz sd)) as [q|]; [|discriminate].
      injection Hstep as <-. cbn [dev]. split.
      * cbn. congruence.
      * intros _ _. exists r. repeat split; reflexivity.
    + injection Hstep as <-. cbn [dev]. split; congruence.
  - split; [reflexivity|].
    injection Hstep as <-. cbn [dev].
    destruct (data_ready sd) eqn:Hd; cbn; congruence.
  - destruct parsed as [v|]; injection Hstep as <-; cbn; split; congruence.
  - destruct parsed as [v|]; injection Hstep as <-; cbn [dev];
      [destruct ((v <? 1) || (v >? 100))|]; cbn; split; congruence.
  - destruct parsed as [v|]; injection Hstep as <-; cbn; split; congruence.
Qed.

Lemma data_ready_transitions_witness :
  let s := mk_system (mk_simtemp_dev true 2 40000 45000 false 0) (Some 0) in
  exists s',
    sys_step jiffies_1000hz div_zero_traps (OpWork 7) s = Some s' /\
    data_ready (dev s') = true /\
    exists r, OpWork 7 = OpWork r /\ sample_count (dev s') = 1.
Proof.
  intros s. eexists. split; [reflexivity|]. split; [reflexivity|].
  destruct (data_ready_transitions jiffies_1000hz div_zero_traps (OpWork 7) s _ eq_refl)
    as [_ H].
  destruct (H eq_refl eq_refl) as (r & Ho & _ & _ & _ & Hc).
  exists r. split; [exact Ho | exact Hc].
Defined.

(** ** The sample counter *)

(** An enabled device that keeps sampling reaches every value of the
    counter. *)
Lemma reachable_count j dz n :
  1 <= n <= U64_MAX ->
  reachable j dz (mk_system (mk_simtemp_dev true 2 40000 45000 true n)
                         (Some (j 500))).
Proof.
  intros [Hlo Hhi].
  assert (Hall : forall k, 0 <= k -> 1 + k <= U64_MAX ->
            reachable j dz (mk_system (mk_simtemp_dev true 2 40000 45000 true (1 + k))
                                   (Some (j 500)))).
  2: { replace n with (1 + (n - 1)) by lia. apply Hall; lia. }
  clear n Hlo Hhi.
  intros k Hk. pattern k. apply natlike_ind; [| |exact Hk]; clear k Hk.
  - intros _.
    apply reach_step with (o := OpWork 500)
      (s := mk_system (mk_simtemp_dev true 2 40000 45000 false 0) (Some 0)).
    + apply reach_step with (o := OpEnableStore (Some 1) 2)
        (s := mk_system (st_init None) None).
      * apply reach_init.
      * reflexivity.
    + reflexivity.
  - intros k Hk IH Hhi.
    apply reach_step with (o := OpWork 500)
      (s := mk_system (mk_simtemp_dev true 2 40000 45000 true (1 + k))
                      (Some (j 500))).
    + apply IH. lia.
    + rewrite sys_step_spec. cbn [work dev enabled sampling_hz].
      change (udiv dz 1000 2) with (Some 500). cbv iota.
      unfold produced. cbn [apply_write enabled sampling_hz temp_mc
                            threshold_mc data_ready sample_count].
      change (40000 + jitter 500) with 40000.
      rewrite u64_small by (unfold U64_MAX in Hhi; lia).
      do 3 f_equal. lia.
Qed.



(** Why the bound is there: 2^64 - 1 samples after [st_init], the next one
    takes the counter back to 0. *)
Lemma sample_count_wraps_to_zero :
  let s := mk_system (mk_simtemp_dev true 2 40000 45000 true U64_MAX)
                     (Some 500) in
  reachable jiffies_1000hz div_zero_traps s /\
  exists s',
    sys_step jiffies_1000hz div_zero_traps (OpWork 500) s = Some s' /\
    sample_count (dev s) = 18446744073709551615 /\
    sample_count (dev s') = 0 /\
    ~ sample_count (dev s) <= sample_count (dev s').
Proof.
  intros s. split.
  - apply (reachable_count jiffies_1000hz div_zero_traps U64_MAX). unfold U64_MAX. lia.
  - eexists. split; [reflexivity|].
    split; [reflexivity|]. split; [reflexivity|].
    intros H. apply H. reflexivity.
Qed.

(** ** Writing [enable] once more *)

(** C9, as the code has it: writing to [enable] the value it already has
    succeeds and leaves every field of the structure as it was.  On the
    work queue it is not neutral when the device is enabled: the work is
    re-armed with delay 0 whatever was pending.  When the device is
    disabled, a reachable state has nothing pending and stays as it is. *)
Theorem enable_store_same_value (j : Z -> Z) (dz : option Z) (v count : Z) (s : system) :
  enabled (dev s) = negb (v =? 0) ->
  exists s',
    sys_step j dz (OpEnableStore (Some v) count) s = Some s' /\
    result (enable_store (Some v) count (dev s)) = count /\
    dev s' = dev s /\
    work s' = (if enabled (dev s) then Some 0 else None) /\
    (enabled (dev s) = false -> reachable j dz s -> s' = s).
Proof.
  intros He. eexists. split; [rewrite sys_step_spec; reflexivity|].
  rewrite enable_store_spec. unfold result. cbn [fst dev work].
  rewrite <- He.
  destruct s as [sd w]. cbn [dev work] in *.
  repeat split.
  - destruct sd; reflexivity.
  - intros Hoff Hr. pose proof (reachable_disabled_idle j dz _ Hr Hoff) as Hw.
    cbn in Hw. subst w. rewrite Hoff. destruct sd; cbn in *.
    now rewrite Hoff.
Qed.

Lemma enable_store_same_value_witness :
  let s := mk_system (mk_simtemp_dev true 2 40000 45000 true 1) (Some 500) in
  enabled (dev s) = negb (1 =? 0) /\
  exists s',
    sys_step jiffies_1000hz div_zero_traps (OpEnableStore (Some 1) 2) s = Some s' /\
    dev s' = dev s /\ work s' = Some 0.
Proof.
  intros s. split; [reflexivity|].
  destruct (enable_store_same_value jiffies_1000hz div_zero_traps 1 2 s eq_refl)
    as (s' & Hstep & _ & Hd & Hw & _).
  exists s'. repeat split; assumption.
Defined.

(** A running device with its next cycle 500 ms away: writing 1 to
    [enable] again makes that cycle due at once. *)
Lemma enable_store_again_rearms :
  let s := mk_system (mk_simtemp_dev true 2 40000 45000 true 1) (Some 500) in
  reachable jiffies_1000hz div_zero_traps s /\
  enabled (dev s) = negb (1 =? 0) /\
  exists s',
    sys_step jiffies_1000hz div_zero_traps (OpEnableStore (Some 1) 2) s = Some s' /\
    work s = Some 500 /\ work s' = Some 0 /\ s' <> s.
Proof.
  intros s. split.
  - apply (reachable_count jiffies_1000hz div_zero_traps 1). unfold U64_MAX. lia.
  - split; [reflexivity|]. eexists. split; [reflexivity|].
    repeat split. discriminate.
Qed.

(** ** The sampling rate *)

(** C3: when the written number [h] is in [1, 100], [sampling_hz_store]
    succeeds (returns [count]), stores [h] and touches no other field, and
    [sampling_hz_show] then prints [h]; for any other outcome of the parse
    (a number outside the range, or no number) it returns [-EINVAL], logs no
    store and leaves the structure as it was. *)
Theorem sampling_hz_store_range (parsed : option Z) (count : Z) (sd : simtemp_dev) :
  let call := sampling_hz_store parsed count sd in
  match parsed with
  | Some h =>
      if (1 <=? h) && (h <=? 100) then
        result call = count /\
        final call = apply_write (Wsampling_hz h) sd /\
        sampling_hz (final call) = h /\
        result (sampling_hz_show (final call)) = sysfs_emit (format_u h ++ newline)
      else
        result call = - EINVAL /\ final call = sd /\ events call = []
  | None => result call = - EINVAL /\ final call = sd /\ events call = []
  end.
Proof.
  cbv zeta. rewrite sampling_hz_store_spec.
  destruct parsed as [h|]; [|repeat split].
  destruct ((1 <=? h) && (h <=? 100)) eqn:Hin.
  - apply andb_prop in Hin. destruct Hin as [H1 H2].
    apply Z.leb_le in H1, H2.
    replace ((h <? 1) || (h >? 100)) with false.
    + repeat split.
    + symmetry. rewrite Z.gtb_ltb. apply orb_false_iff.
      split; apply Z.ltb_ge; lia.
  - replace ((h <? 1) || (h >? 100)) with true; [repeat split|].
    symmetry. rewrite Z.gtb_ltb. apply andb_false_iff in Hin.
    apply orb_true_iff.
    destruct Hin as [H|H]; apply Z.leb_gt in H;
      [left | right]; apply Z.ltb_lt; lia.
Qed.

(** ** Poll *)

(** C4: [st_poll] reports readiness (a non-zero mask, [EPOLLIN |
    EPOLLRDNORM]) exactly when [data_ready] was set on entry and leaves
    [data_ready] false, touching no other field; called again at once it
    reports nothing.  With the flag set: ready, then not ready. *)
Theorem st_poll_check_and_clear (sd : simtemp_dev) :
  let first := st_poll sd in
  let second := st_poll (final first) in
  result first = (if data_ready sd then Z.lor EPOLLIN EPOLLRDNORM else 0) /\
  (result first <> 0 <-> data_ready sd = true) /\
  final first = apply_write (Wdata_ready false) sd /\
  data_ready (final first) = false /\
  result second = 0 /\
  final second = final first.
Proof.
  cbv zeta. rewrite !st_poll_spec.
  destruct sd as [en hz t th [|] c]; cbn; repeat split; try discriminate;
    try reflexivity; intros H; try discriminate; now destruct H.
Qed.

(** ** Locking *)

(** C5, at the failing inputs: [sampling_hz_store] and [threshold_mc_store]
    store to the structure without ever taking the lock. *)
Theorem attribute_stores_unlocked (count : Z) (sd : simtemp_dev) :
  events (sampling_hz_store (Some 50) count sd) = [EvWrite (Wsampling_hz 50)] /\
  accesses_locked false (events (sampling_hz_store (Some 50) count sd)) = false /\
  events (threshold_mc_store (Some 42000) count sd) = [EvWrite (Wthreshold_mc 42000)] /\
  accesses_locked false (events (threshold_mc_store (Some 42000) count sd)) = false.
Proof. repeat split. Qed.

(** The other paths that touch the structure outside the lock: the
    re-read of [enabled] in [enable_store], [st_read] and the four show
    functions. *)
Lemma other_unlocked_accesses (sd : simtemp_dev) :
  accesses_locked false (events (enable_store (Some 1) 2 sd)) = false /\
  accesses_locked false (events (st_read 64 64 0 sd)) = false /\
  accesses_locked false (events (enable_show sd)) = false /\
  accesses_locked false (events (sampling_hz_show sd)) = false /\
  accesses_locked false (events (threshold_mc_show sd)) = false /\
  accesses_locked false (events (temp_mc_show sd)) = false.
Proof.
  split; [rewrite enable_store_spec; reflexivity|].
  split; [|repeat split].
  rewrite st_read_spec. cbv zeta. change (negb (0 =? 0)) with false. cbv iota.
  destruct (64 <? _); [reflexivity|].
  destruct (Z.of_nat 64 <? _); reflexivity.
Qed.

(** ** The threshold *)

(** C8: a cycle run on two structures that differ only in [threshold_mc]
    logs the same events, the wake-up included, and ends in structures that
    again differ only in [threshold_mc]; a producing cycle wakes the wait
    queue exactly once, a cycle on a disabled device never. *)
Theorem threshold_has_no_effect (j : Z -> Z) (dz : option Z) (r th : Z) (sd : simtemp_dev) :
  let sd2 := apply_write (Wthreshold_mc th) sd in
  let cycle1 := simtemp_update_fn j dz r sd in
  let cycle2 := simtemp_update_fn j dz r sd2 in
  events cycle2 = events cycle1 /\
  final cycle2 = apply_write (Wthreshold_mc th) (final cycle1) /\
  List.length (filter is_wake (events cycle1)) = (if enabled sd then 1 else 0)%nat.
Proof.
  cbv zeta. destruct (enabled sd) eqn:He.
  - rewrite (simtemp_update_fn_enabled j dz r sd He).
    rewrite (simtemp_update_fn_enabled j dz r (apply_write (Wthreshold_mc th) sd) He).
    unfold events, final. cbn [fst snd apply_write sampling_hz sample_count].
    repeat split. destruct (udiv dz 1000 (sampling_hz sd)); reflexivity.
  - rewrite (simtemp_update_fn_disabled j dz r sd He).
    rewrite (simtemp_update_fn_disabled j dz r (apply_write (Wthreshold_mc th) sd) He).
    repeat split.
Qed.

(** ** Read *)

(** C10, as the code has it: [st_read] with a non-zero offset returns 0
    and copies nothing; with a length shorter than the line it returns
    [-EINVAL] and copies nothing; otherwise it hands the whole line to
    [copy_to_user] and, when all of it could be written, sets the offset to
    the length of the line and returns that length; when the user buffer
    faults it returns [-EFAULT] and leaves the offset at 0.  The line is
    never cut by the 64-byte kernel buffer, and the structure is never
    changed. *)
Theorem st_read_outcomes (avail : nat) (len ppos : Z) (sd : simtemp_dev) :
  let line := temp_line (temp_mc sd) in
  let n := strlen line in
  let call := st_read avail len ppos sd in
  scnprintf 64 line = (line, n) /\
  final call = sd /\
  result call =
    (if negb (ppos =? 0) then (0, ppos)
     else if len <? n then (- EINVAL, ppos)
     else if Z.of_nat avail <? n then (- EFAULT, ppos)
     else (n, n)) /\
  filter is_copy (events call) =
    (if negb (ppos =? 0) then []
     else if len <? n then []
     else if Z.of_nat avail <? n then [EvCopyToUser (substring 0 avail line)]
     else [EvCopyToUser line]).
Proof.
  cbv zeta. split; [apply scnprintf_temp_line|].
  rewrite st_read_spec. cbv zeta.
  destruct (negb (ppos =? 0)); [repeat split|].
  destruct (len <? _); [repeat split|].
  destruct (Z.of_nat avail <? _); repeat split.
Qed.

(** A read at offset 0 with room for the line, into a user buffer of which
    only three bytes are writable: [-EFAULT], offset still 0, three bytes
    of the line in user memory. *)
Lemma st_read_faulting_buffer :
  let sd := st_init None in
  let call := st_read 3 64 0 sd in
  strlen (temp_line (temp_mc sd)) = 14 /\
  result call = (- EFAULT, 0) /\
  result call <> (14, 14) /\
  events call = [EvRead Ftemp_mc; EvCopyToUser "tem"].
Proof. repeat split. discriminate. Qed.

(** * More of the driver *)

(** ** Runs of the system *)

Lemma run_cons j dz o ops s :
  run j dz (o :: ops) s =
    match sys_step j dz o s with
    | Some s' => run j dz ops s'
    | None => None
    end.
Proof. reflexivity. Qed.

Lemma run_app j dz ops1 : forall ops2 s,
  run j dz (ops1 ++ ops2) s =
    match run j dz ops1 s with
    | Some s1 => run j dz ops2 s1
    | None => None
    end.
Proof.
  induction ops1 as [|o ops1 IH]; intros ops2 s; cbn; [reflexivity|].
  destruct (sys_step j dz o s); [apply IH | reflexivity].
Qed.

Lemma run_reachable j dz ops : forall s s',
  reachable j dz s -> run j dz ops s = Some s' -> reachable j dz s'.
Proof.
  induction ops as [|o ops IH]; intros s s' Hr Hrun; cbn in Hrun.
  - now injection Hrun as <-.
  - destruct (sys_step j dz o s) as [s1|] eqn:Hstep; [|discriminate].
    apply (IH s1 s'); [|exact Hrun]. now apply reach_step with o s.
Qed.

(** Only [sampling_hz_store] writes the rate, and only values it accepts. *)
Lemma rate_step j dz o s s' :
  sys_step j dz o s = Some s' ->
  1 <= sampling_hz (dev s) <= 100 -> 1 <= sampling_hz (dev s') <= 100.
Proof.
  intros Hstep Hhz. rewrite sys_step_spec in Hstep.
  destruct s as [sd w]. cbn [dev work] in *.
  destruct o; try (injection Hstep as <-; exact Hhz).
  - destruct w as [d|]; [|discriminate].
    destruct (enabled sd).
    + destruct (udiv dz 1000 (sampling_hz sd)) as [q|]; [|discriminate].
      injection Hstep as <-. exact Hhz.
    + injection Hstep as <-. exact Hhz.
  - injection Hstep as <-. cbn [dev]. destruct (data_ready sd); exact Hhz.
  - destruct parsed as [v|]; injection Hstep as <-; exact Hhz.
  - destruct parsed as [v|]; injection Hstep as <-; [|exact Hhz].
    cbn [dev]. destruct ((v <? 1) || (v >? 100)) eqn:Hv; [exact Hhz|].
    apply orb_false_iff in Hv. destruct Hv as [H1 H2].
    apply Z.ltb_ge in H1. rewrite Z.gtb_ltb in H2. apply Z.ltb_ge in H2.
    cbn. lia.
  - destruct parsed as [v|]; injection Hstep as <-; exact Hhz.
Qed.

Lemma rate_run j dz ops : forall s s',
  run j dz ops s = Some s' ->
  1 <= sampling_hz (dev s) <= 100 -> 1 <= sampling_hz (dev s') <= 100.
Proof.
  induction ops as [|o ops IH]; intros s s' Hrun Hhz; cbn in Hrun.
  - now injection Hrun as <-.
  - destruct (sys_step j dz o s) as [s1|] eqn:Hstep; [|discriminate].
    apply (IH s1 s' Hrun). now apply rate_step with j dz o s.
Qed.

Lemma st_init_rate_valid dt :
  dt_rate_valid dt -> 1 <= sampling_hz (st_init dt) <= 100.
Proof.
  destruct dt as [[[hz|] [th|]]|]; cbn; intros H; lia.
Qed.

(** ** The rate and the device tree *)

(** X1: when the device tree gives no rate or one in [1, 100], the rate
    stays in [1, 100] whatever is done to the device, and the work, once
    pending, always runs to its end: the division in [simtemp_update_fn]
    never faults. *)
Theorem valid_rate_never_dies
    (j : Z -> Z) (dz : option Z) (dt : option dt_node) (ops : list op) (s : system) (r : Z) :
  dt_rate_valid dt ->
  run j dz ops (boot dt) = Some s ->
  1 <= sampling_hz (dev s) <= 100 /\
  (work s <> None -> exists s', sys_step j dz (OpWork r) s = Some s').
Proof.
  intros Hdt Hrun.
  assert (Hhz : 1 <= sampling_hz (dev s) <= 100).
  { apply (rate_run j dz ops (boot dt) s Hrun). now apply st_init_rate_valid. }
  split; [exact Hhz|].
  intros Hw. rewrite sys_step_spec.
  destruct (work s) as [d|]; [|contradiction].
  destruct (enabled (dev s)); [|eauto].
  rewrite udiv_nonzero by lia. eauto.
Qed.

Lemma valid_rate_never_dies_witness :
  let dt := Some (mk_dt_node (Some 10) None) in
  let ops := [OpEnableStore (Some 1) 2; OpWork 3; OpSamplingHzStore (Some 100) 4] in
  dt_rate_valid dt /\
  exists s, run jiffies_1000hz div_zero_traps ops (boot dt) = Some s /\
            sampling_hz (dev s) = 100 /\
            exists s', sys_step jiffies_1000hz div_zero_traps (OpWork 9) s = Some s'.
Proof.
  intros dt ops.
  assert (Hdt : dt_rate_valid dt) by (cbn; lia).
  split; [exact Hdt|].
  eexists. split; [reflexivity|]. split; [reflexivity|].
  refine (proj2 (valid_rate_never_dies jiffies_1000hz div_zero_traps dt ops _ 9 Hdt eq_refl) _).
  discriminate.
Defined.

(** X2: [st_init] takes the rate of the device tree as it is.  With a rate
    of 0, the first cycle after the device is enabled stores its sample,
    sets the flag and wakes the pollers, and then divides 1000 by 0.  Where
    that traps, the cycle ends there: the lock is not released and the work
    not re-armed.  Where it yields a quotient [q], the cycle releases the
    lock and re-arms the work with [msecs_to_jiffies q]. *)
Theorem dt_rate_zero_first_cycle
    (j : Z -> Z) (dz : option Z) (th : option Z) (v count r : Z) :
  v <> 0 ->
  let s0 := boot (Some (mk_dt_node (Some 0) th)) in
  let s1 := mk_system (apply_write (Wenabled true) (dev s0)) (Some 0) in
  let cycle := simtemp_update_fn j dz r (dev s1) in
  sampling_hz (dev s0) = 0 /\
  sys_step j dz (OpEnableStore (Some v) count) s0 = Some s1 /\
  temp_mc (final cycle) = 40000 + jitter r /\
  sample_count (final cycle) = 1 /\
  data_ready (final cycle) = true /\
  In EvWakeUp (events cycle) /\
  match dz with
  | None =>
      sys_step j dz (OpWork r) s1 = None /\
      In EvDivideError (events cycle) /\
      ~ In EvUnlock (events cycle) /\
      run_workqueue (events cycle) None = None
  | Some q =>
      sys_step j dz (OpWork r) s1 =
        Some (mk_system (final cycle) (Some (j q))) /\
      ~ In EvDivideError (events cycle) /\
      In EvUnlock (events cycle) /\
      run_workqueue (events cycle) None = Some (j q)
  end.
Proof.
  intros Hv s0 s1 cycle.
  assert (Hb : negb (v =? 0) = true).
  { apply negb_true_iff. now apply Z.eqb_neq. }
  assert (Hhz : sampling_hz (dev s0) = 0) by (destruct th; reflexivity).
  assert (Hc0 : sample_count (dev s0) = 0) by (destruct th; reflexivity).
  split; [exact Hhz|].
  split; [rewrite sys_step_spec, Hb; reflexivity|].
  assert (Hstep : sys_step j dz (OpWork r) s1 =
                  match dz with
                  | None => None
                  | Some q => Some (mk_system (produced r (dev s1)) (Some (j q)))
                  end).
  { rewrite sys_step_spec. unfold s1.
    cbn [work dev enabled apply_write sampling_hz]. now rewrite Hhz. }
  assert (Hcyc : cycle =
                 (tt, produced r (dev s1),
                  [EvLock; EvRead Fenabled; EvWrite (Wtemp_mc (40000 + jitter r));
                   EvRead Fsample_count;
                   EvWrite (Wsample_count (u64 (sample_count (dev s1) + 1)));
                   EvWrite (Wdata_ready true); EvRead Ftemp_mc;
                   EvRead Fthreshold_mc; EvWakeUp; EvRead Fsampling_hz] ++
                  match dz with
                  | None => [EvDivideError]
                  | Some q => [EvUnlock; EvSchedule (j q)]
                  end)).
  { unfold cycle. rewrite simtemp_update_fn_enabled by reflexivity.
    unfold s1. cbn [dev apply_write sampling_hz]. now rewrite Hhz. }
  rewrite Hstep, Hcyc. unfold final, events. cbn [fst snd].
  split; [reflexivity|].
  split; [unfold s1; cbn [dev produced apply_write sample_count];
          rewrite Hc0; reflexivity|].
  split; [reflexivity|].
  split; [cbn; tauto|].
  destruct dz as [q|].
  - split; [reflexivity|]. split; [|split; [cbn; tauto | reflexivity]].
    cbn. intros H. repeat (destruct H as [H|H]; [discriminate H|]). exact H.
  - split; [reflexivity|]. split; [cbn; tauto|]. split; [|reflexivity].
    cbn. intros H. repeat (destruct H as [H|H]; [discriminate H|]). exact H.
Qed.

Lemma dt_rate_zero_first_cycle_witness :
  let s1 := mk_system (apply_write (Wenabled true)
                         (dev (boot (Some (mk_dt_node (Some 0) None)))))
                      (Some 0) in
  1 <> 0 /\
  sys_step jiffies_1000hz div_zero_traps (OpWork 7) s1 = None /\
  exists s2,
    sys_step jiffies_1000hz div_zero_yields_0 (OpWork 7) s1 = Some s2 /\
    work s2 = Some 0.
Proof.
  intros s1.
  assert (H : 1 <> 0) by discriminate.
  split; [exact H|].
  pose proof (dt_rate_zero_first_cycle jiffies_1000hz div_zero_traps None
                1 2 7 H) as Ht.
  pose proof (dt_rate_zero_first_cycle jiffies_1000hz div_zero_yields_0 None
                1 2 7 H) as Hy.
  cbv zeta in Ht, Hy.
  destruct Ht as (_ & _ & _ & _ & _ & _ & Ht & _).
  destruct Hy as (_ & _ & _ & _ & _ & _ & Hy & _).
  split; [exact Ht|].
  eexists. split; [exact Hy | reflexivity].
Defined.

(** ** The period *)

(** X3: with a rate in [1, 100] a producing cycle re-arms the work with
    [msecs_to_jiffies (1000 / hz)], the integer quotient: a period between
    10 and 1000 ms that never exceeds the exact period, and is short of it
    by less than 1 ms. *)
Theorem cycle_period_in_range (j : Z -> Z) (dz : option Z) (r : Z) (sd : simtemp_dev) :
  enabled sd = true ->
  1 <= sampling_hz sd <= 100 ->
  let p := 1000 / sampling_hz sd in
  run_workqueue (events (simtemp_update_fn j dz r sd)) None = Some (j p) /\
  10 <= p <= 1000 /\
  sampling_hz sd * p <= 1000 < sampling_hz sd * (p + 1).
Proof.
  intros He Hhz p. rewrite (simtemp_update_fn_enabled j dz r sd He).
  unfold events. cbn [snd].
  rewrite udiv_nonzero by lia.
  split; [reflexivity|]. unfold p. Z.div_mod_to_equations. nia.
Qed.

Lemma cycle_period_in_range_witness :
  let sd := mk_simtemp_dev true 3 40000 45000 false 0 in
  enabled sd = true /\ 1 <= sampling_hz sd <= 100 /\
  run_workqueue (events (simtemp_update_fn jiffies_1000hz div_zero_traps 0 sd)) None = Some 333.
Proof.
  intros sd.
  assert (Hhz : 1 <= sampling_hz sd <= 100) by (cbn; lia).
  split; [reflexivity|]. split; [exact Hhz|].
  exact (proj1 (cycle_period_in_range jiffies_1000hz div_zero_traps 0 sd eq_refl Hhz)).
Defined.

(** ** Consecutive cycles *)

Lemma u64_succ_add c k : u64 (u64 (c + 1) + 1 + k) = u64 (c + 1 + (1 + k)).
Proof.
  unfold u64. rewrite <- Z.add_assoc.
  now rewrite Zplus_mod_idemp_l.
Qed.

Lemma last_cons_default {A} (l : list A) : forall a d,
  last (a :: l) d = last l a.
Proof.
  induction l as [|b l IH]; intros a d; [reflexivity|].
  change (last (a :: b :: l) d) with (last (b :: l) d).
  now rewrite !IH.
Qed.

(** The state after the cycles drawing [r], then [rs] in turn. *)
Lemma run_cycles j dz rs : forall r s,
  enabled (dev s) = true -> sampling_hz (dev s) <> 0 -> work s <> None ->
  run j dz (map OpWork (r :: rs)) s =
    Some (mk_system
            (mk_simtemp_dev true (sampling_hz (dev s))
               (40000 + jitter (last rs r)) (threshold_mc (dev s)) true
               (u64 (sample_count (dev s) + 1 + Z.of_nat (List.length rs))))
            (Some (j (1000 / sampling_hz (dev s))))).
Proof.
  induction rs as [|r' rs IH]; intros r s He Hhz Hw.
  - cbn [map run]. rewrite sys_step_spec.
    destruct (work s) as [d|]; [|contradiction].
    rewrite He, (udiv_nonzero dz 1000 _ Hhz).
    unfold produced. cbn [apply_write enabled sampling_hz temp_mc threshold_mc
                          data_ready sample_count List.length last].
    rewrite He. do 4 f_equal. lia.
  - specialize (IH r'). cbn [map] in IH. cbn [map]. rewrite run_cons.
    rewrite sys_step_spec.
    destruct (work s) as [d|]; [|contradiction].
    rewrite He, (udiv_nonzero dz 1000 _ Hhz).
    rewrite IH; cbn [dev work produced apply_write enabled sampling_hz
                     threshold_mc sample_count]; try assumption;
      try reflexivity; try discriminate.
    rewrite last_cons_default, u64_succ_add. do 4 f_equal.
    cbn [List.length]. lia.
Qed.

(** X4: however many cycles run in a row, the counter advances by their
    number modulo 2^64, the reading is the one of the last draw, the flag
    is set and the next cycle is pending one period later. *)
Theorem consecutive_cycles
    (j : Z -> Z) (dz : option Z) (r : Z) (rs : list Z) (s : system) :
  enabled (dev s) = true -> sampling_hz (dev s) <> 0 -> work s <> None ->
  exists s',
    run j dz (map OpWork (r :: rs)) s = Some s' /\
    sample_count (dev s') =
      u64 (sample_count (dev s) + Z.of_nat (List.length (r :: rs))) /\
    temp_mc (dev s') = 40000 + jitter (last rs r) /\
    data_ready (dev s') = true /\
    enabled (dev s') = true /\
    sampling_hz (dev s') = sampling_hz (dev s) /\
    threshold_mc (dev s') = threshold_mc (dev s) /\
    work s' = Some (j (1000 / sampling_hz (dev s))).
Proof.
  intros He Hhz Hw. eexists. split; [now apply run_cycles|].
  cbn [dev work sample_count temp_mc data_ready enabled sampling_hz threshold_mc].
  repeat split. f_equal. cbn [List.length]. lia.
Qed.

Lemma consecutive_cycles_witness :
  let s := mk_system (mk_simtemp_dev true 2 40000 45000 false 5) (Some 0) in
  enabled (dev s) = true /\ sampling_hz (dev s) <> 0 /\ work s <> None /\
  exists s', run jiffies_1000hz div_zero_traps (map OpWork [7; 8; 9]) s = Some s' /\
             sample_count (dev s') = 8 /\ temp_mc (dev s') = 39509.
Proof.
  intros s.
  assert (Hhz : sampling_hz (dev s) <> 0) by discriminate.
  assert (Hw : work s <> None) by discriminate.
  split; [reflexivity|]. split; [exact Hhz|]. split; [exact Hw|].
  destruct (consecutive_cycles jiffies_1000hz div_zero_traps 7 [8; 9] s eq_refl Hhz Hw)
    as (s' & Hrun & Hc & Ht & _).
  exists s'. split; [exact Hrun|]. split; [exact Hc | exact Ht].
Defined.

(** X5: the flag does not count.  After any number of cycles since the
    last [st_poll], the next [st_poll] reports readiness once and the one
    after it reports nothing. *)
Theorem poll_coalesces_samples
    (j : Z -> Z) (dz : option Z) (r : Z) (rs : list Z) (s : system) :
  enabled (dev s) = true -> sampling_hz (dev s) <> 0 -> work s <> None ->
  exists s',
    run j dz (map OpWork (r :: rs)) s = Some s' /\
    result (st_poll (dev s')) = Z.lor EPOLLIN EPOLLRDNORM /\
    result (st_poll (final (st_poll (dev s')))) = 0 /\
    sample_count (final (st_poll (dev s'))) = sample_count (dev s').
Proof.
  intros He Hhz Hw. eexists. split; [now apply run_cycles|].
  rewrite !st_poll_spec. cbn [dev data_ready]. repeat split.
Qed.

Lemma poll_coalesces_samples_witness :
  let s := mk_system (mk_simtemp_dev true 2 40000 45000 false 5) (Some 0) in
  enabled (dev s) = true /\ sampling_hz (dev s) <> 0 /\ work s <> None /\
  exists s', run jiffies_1000hz div_zero_traps (map OpWork [7; 8; 9]) s = Some s' /\
             result (st_poll (dev s')) = 65 /\
             result (st_poll (final (st_poll (dev s')))) = 0.
Proof.
  intros s.
  assert (Hhz : sampling_hz (dev s) <> 0) by discriminate.
  assert (Hw : work s <> None) by discriminate.
  split; [reflexivity|]. split; [exact Hhz|]. split; [exact Hw|].
  destruct (poll_coalesces_samples jiffies_1000hz div_zero_traps 7 [8; 9] s eq_refl Hhz Hw)
    as (s' & Hrun & H1 & H2 & _).
  exists s'. split; [exact Hrun|]. split; [exact H1 | exact H2].
Defined.

(** X6: a device-tree rate above 1000 is taken as it is too, and makes the
    period [1000 / hz] zero: once enabled, every cycle re-arms the work
    with [msecs_to_jiffies 0]. *)
Theorem dt_rate_above_1000_zero_period
    (j : Z -> Z) (dz : option Z) (val : Z) (th : option Z)
    (v count r : Z) (rs : list Z) :
  1000 < val < 2 ^ 32 ->
  v <> 0 ->
  exists s',
    run j dz (OpEnableStore (Some v) count :: map OpWork (r :: rs))
          (boot (Some (mk_dt_node (Some val) th))) = Some s' /\
    sampling_hz (dev s') = val /\
    work s' = Some (j 0).
Proof.
  intros Hval Hv.
  assert (Hb : negb (v =? 0) = true).
  { apply negb_true_iff. now apply Z.eqb_neq. }
  assert (Hhz : sampling_hz (st_init (Some (mk_dt_node (Some val) th))) = val).
  { destruct th; cbn; unfold u32; apply Z.mod_small; lia. }
  change (OpEnableStore (Some v) count :: map OpWork (r :: rs))
    with ([OpEnableStore (Some v) count] ++ map OpWork (r :: rs)).
  rewrite run_app. cbn [run]. rewrite sys_step_spec, Hb. unfold boot.
  cbn [dev work].
  rewrite run_cycles; cbn [dev work apply_write enabled sampling_hz];
    try reflexivity; try discriminate; [|rewrite Hhz; lia].
  eexists. split; [reflexivity|]. cbn [dev work sampling_hz].
  split; [exact Hhz|]. rewrite Hhz. do 2 f_equal. apply Z.div_small. lia.
Qed.

Lemma dt_rate_above_1000_zero_period_witness :
  1000 < 5000 < 2 ^ 32 /\ 1 <> 0 /\
  exists s',
    run jiffies_1000hz div_zero_traps [OpEnableStore (Some 1) 2; OpWork 7; OpWork 8]
        (boot (Some (mk_dt_node (Some 5000) None))) = Some s' /\
    work s' = Some 0.
Proof.
  assert (Hval : 1000 < 5000 < 2 ^ 32) by (split; reflexivity).
  assert (Hv : 1 <> 0) by discriminate.
  split; [exact Hval|]. split; [exact Hv|].
  destruct (dt_rate_above_1000_zero_period jiffies_1000hz div_zero_traps 5000 None 1 2 7 [8]
              Hval Hv) as (s' & Hrun & _ & Hw).
  exists s'. split; [exact Hrun | exact Hw].
Defined.

(** ** Enabling and the rate *)

(** X7: writing a non-zero value to [enable] makes the work due at once,
    whatever was pending; its cycle then produces a sample within the
    jitter of the baseline and re-arms itself one period later. *)
Theorem enable_then_first_sample
    (j : Z -> Z) (dz : option Z) (v count r : Z) (s : system) :
  v <> 0 -> sampling_hz (dev s) <> 0 ->
  exists s1 s2,
    sys_step j dz (OpEnableStore (Some v) count) s = Some s1 /\
    work s1 = Some 0 /\
    sys_step j dz (OpWork r) s1 = Some s2 /\
    enabled (dev s2) = true /\
    data_ready (dev s2) = true /\
    sample_count (dev s2) = u64 (sample_count (dev s) + 1) /\
    39500 <= temp_mc (dev s2) <= 40500 /\
    work s2 = Some (j (1000 / sampling_hz (dev s))).
Proof.
  intros Hv Hhz.
  assert (Hb : negb (v =? 0) = true).
  { apply negb_true_iff. now apply Z.eqb_neq. }
  do 2 eexists. split; [rewrite sys_step_spec, Hb; reflexivity|].
  split; [reflexivity|].
  split.
  { rewrite sys_step_spec. cbn [dev work apply_write enabled sampling_hz].
    rewrite (udiv_nonzero dz 1000 _ Hhz). reflexivity. }
  cbn [dev work produced apply_write enabled data_ready sample_count temp_mc
       sampling_hz].
  repeat split; apply reading_range.
Qed.

Lemma enable_then_first_sample_witness :
  let s := boot None in
  1 <> 0 /\ sampling_hz (dev s) <> 0 /\
  exists s2,
    run jiffies_1000hz div_zero_traps [OpEnableStore (Some 1) 2; OpWork 7] s = Some s2 /\
    sample_count (dev s2) = 1 /\ work s2 = Some 500.
Proof.
  intros s.
  assert (Hv : 1 <> 0) by discriminate.
  assert (Hhz : sampling_hz (dev s) <> 0) by discriminate.
  split; [exact Hv|]. split; [exact Hhz|].
  destruct (enable_then_first_sample jiffies_1000hz div_zero_traps 1 2 7 s Hv Hhz)
    as (s1 & s2 & H1 & _ & H2 & _ & _ & Hc & _ & Hw).
  exists s2. cbn [run]. rewrite H1, H2.
  split; [reflexivity|]. split; [exact Hc | exact Hw].
Defined.

(** X8: a new rate does not touch the pending work, which still fires
    after the delay computed from the old rate; the cycle that then runs
    re-arms with the period of the new rate. *)
Theorem rate_change_applies_next_cycle
    (j : Z -> Z) (dz : option Z) (h count r d : Z) (s : system) :
  1 <= h <= 100 -> enabled (dev s) = true -> work s = Some d ->
  exists s1 s2,
    sys_step j dz (OpSamplingHzStore (Some h) count) s = Some s1 /\
    work s1 = Some d /\
    sys_step j dz (OpWork r) s1 = Some s2 /\
    work s2 = Some (j (1000 / h)).
Proof.
  intros Hh He Hw.
  assert (Hin : (h <? 1) || (h >? 100) = false).
  { rewrite Z.gtb_ltb. apply orb_false_iff. split; apply Z.ltb_ge; lia. }
  assert (H0 : h <> 0) by lia.
  do 2 eexists. split; [rewrite sys_step_spec, Hin; reflexivity|].
  split; [exact Hw|].
  split.
  - rewrite sys_step_spec. cbn [dev work apply_write enabled sampling_hz].
    rewrite Hw, He, (udiv_nonzero dz 1000 h H0). reflexivity.
  - reflexivity.
Qed.

Lemma rate_change_applies_next_cycle_witness :
  let s := mk_system (mk_simtemp_dev true 2 40000 45000 true 1) (Some 500) in
  1 <= 10 <= 100 /\ enabled (dev s) = true /\ work s = Some 500 /\
  exists s2,
    run jiffies_1000hz div_zero_traps [OpSamplingHzStore (Some 10) 3; OpWork 7] s = Some s2 /\
    work s2 = Some 100.
Proof.
  intros s.
  assert (Hh : 1 <= 10 <= 100) by lia.
  split; [exact Hh|]. split; [reflexivity|]. split; [reflexivity|].
  destruct (rate_change_applies_next_cycle jiffies_1000hz div_zero_traps 10 3 7 500 s
              Hh eq_refl eq_refl) as (s1 & s2 & H1 & _ & H2 & Hw).
  exists s2. cbn [run]. rewrite H1, H2. split; [reflexivity | exact Hw].
Defined.

(** With a rate in [1, 100], a step keeps "enabled exactly when the work is
    pending". *)
Lemma armed_step j dz o s s' :
  sys_step j dz o s = Some s' ->
  1 <= sampling_hz (dev s) <= 100 ->
  (enabled (dev s) = true <-> work s <> None) ->
  (enabled (dev s') = true <-> work s' <> None).
Proof.
  intros Hstep Hhz Hinv. rewrite sys_step_spec in Hstep.
  destruct s as [sd w]. cbn [dev work] in *.
  destruct o; try (injection Hstep as <-; exact Hinv).
  - destruct w as [d|]; [|discriminate].
    destruct (enabled sd) eqn:He.
    + rewrite udiv_nonzero in Hstep by lia. injection Hstep as <-.
      cbn. rewrite He. split; [discriminate | reflexivity].
    + injection Hstep as <-. cbn. rewrite He.
      split; [discriminate | intros H; now destruct H].
  - injection Hstep as <-. cbn [dev work].
    destruct (data_ready sd); exact Hinv.
  - destruct parsed as [v|]; injection Hstep as <-; [|exact Hinv].
    cbn. destruct (negb (v =? 0)).
    + split; [discriminate | reflexivity].
    + split; [discriminate | intros H; now destruct H].
  - destruct parsed as [v|]; injection Hstep as <-; [|exact Hinv].
    cbn [dev work]. destruct ((v <? 1) || (v >? 100)); exact Hinv.
  - destruct parsed as [v|]; injection Hstep as <-; exact Hinv.
Qed.

Lemma armed_run j dz ops : forall s s',
  run j dz ops s = Some s' ->
  1 <= sampling_hz (dev s) <= 100 ->
  (enabled (dev s) = true <-> work s <> None) ->
  (enabled (dev s') = true <-> work s' <> None).
Proof.
  induction ops as [|o ops IH]; intros s s' Hrun Hhz Hinv; cbn in Hrun.
  - now injection Hrun as <-.
  - destruct (sys_step j dz o s) as [s1|] eqn:Hstep; [|discriminate].
    apply (IH s1 s' Hrun).
    + now apply rate_step with j dz o s.
    + now apply armed_step with j dz o s.
Qed.

(** X9: when the device tree gives no rate or one in [1, 100], then after
    any operations on the device (each taken as a whole) it is enabled
    exactly when its work is pending: a running device always has its next
    cycle armed, a stopped one never. *)
Theorem enabled_iff_work_pending
    (j : Z -> Z) (dz : option Z) (dt : option dt_node) (ops : list op)
    (s : system) :
  dt_rate_valid dt ->
  run j dz ops (boot dt) = Some s ->
  (enabled (dev s) = true <-> work s <> None).
Proof.
  intros Hdt Hrun.
  apply (armed_run j dz ops (boot dt) s Hrun).
  - now apply st_init_rate_valid.
  - unfold boot. cbn [dev work].
    split; [|intros H; now destruct H].
    destruct dt as [[[?|] [?|]]|]; cbn; discriminate.
Qed.

Lemma enabled_iff_work_pending_witness :
  let dt := Some (mk_dt_node (Some 10) None) in
  let ops := [OpEnableStore (Some 1) 2; OpWork 3; OpPoll] in
  dt_rate_valid dt /\
  exists s, run jiffies_1000hz div_zero_traps ops (boot dt) = Some s /\
            work s = Some 100 /\
            (enabled (dev s) = true <-> work s <> None).
Proof.
  intros dt ops.
  assert (Hdt : dt_rate_valid dt) by (cbn; lia).
  split; [exact Hdt|].
  eexists. split; [reflexivity|]. split; [reflexivity|].
  exact (enabled_iff_work_pending jiffies_1000hz div_zero_traps dt ops _
           Hdt eq_refl).
Defined.

(** ** Reading *)

Lemma format_digits_more fuel n acc :
  n / 10 <> 0 ->
  format_digits (S fuel) n acc =
    format_digits fuel (n / 10) (String (digit_char (n mod 10)) acc).
Proof.
  intros H. cbn [format_digits]. apply Z.eqb_neq in H. now rewrite H.
Qed.

Lemma format_digits_last fuel n acc :
  n / 10 = 0 ->
  format_digits (S fuel) n acc = String (digit_char (n mod 10)) acc.
Proof.
  intros H. cbn [format_digits]. apply Z.eqb_eq in H. now rewrite H.
Qed.

Lemma format_d_five_digits n :
  10000 <= n <= 99999 -> String.length (format_d n) = 5%nat.
Proof.
  intros Hn. unfold format_d.
  replace (n <? 0) with false by (symmetry; apply Z.ltb_ge; lia).
  unfold format_u.
  rewrite !format_digits_more by (Z.div_mod_to_equations; lia).
  rewrite format_digits_last by (Z.div_mod_to_equations; lia).
  reflexivity.
Qed.

(** X10: in every reachable state the reading lies in [39500, 40500], so
    the line of [st_read] is exactly 14 bytes: a first read into a writable
    buffer needs [len >= 14] and then returns 14, and fails with [-EINVAL]
    for anything shorter. *)
Theorem read_needs_14_bytes
    (j : Z -> Z) (dz : option Z) (s : system) (avail : nat) (len : Z) :
  reachable j dz s ->
  (14 <= avail)%nat ->
  39500 <= temp_mc (dev s) <= 40500 /\
  strlen (temp_line (temp_mc (dev s))) = 14 /\
  result (st_read avail len 0 (dev s)) =
    (if len <? 14 then (- EINVAL, 0) else (14, 14)).
Proof.
  intros Hr Ha.
  destruct (reachable_ranges j dz s Hr) as [_ Ht].
  assert (Hlen : strlen (temp_line (temp_mc (dev s))) = 14).
  { unfold strlen, temp_line. rewrite !append_length.
    rewrite format_d_five_digits by lia. reflexivity. }
  split; [exact Ht|]. split; [exact Hlen|].
  rewrite st_read_spec. cbv zeta. rewrite Hlen.
  change (negb (0 =? 0)) with false. cbv iota.
  destruct (len <? 14); [reflexivity|].
  replace (Z.of_nat avail <? 14) with false by (symmetry; apply Z.ltb_ge; lia).
  reflexivity.
Qed.

Lemma read_needs_14_bytes_witness :
  let s := mk_system (mk_simtemp_dev true 2 40000 45000 true 1) (Some 500) in
  reachable jiffies_1000hz div_zero_traps s /\ (14 <= 14)%nat /\
  result (st_read 14 13 0 (dev s)) = (- EINVAL, 0) /\
  result (st_read 14 14 0 (dev s)) = (14, 14).
Proof.
  intros s.
  assert (Hr : reachable jiffies_1000hz div_zero_traps s).
  { apply (reachable_count jiffies_1000hz div_zero_traps 1). unfold U64_MAX. lia. }
  assert (Ha : (14 <= 14)%nat) by lia.
  split; [exact Hr|]. split; [exact Ha|].
  split.
  - exact (proj2 (proj2 (read_needs_14_bytes jiffies_1000hz div_zero_traps s 14 13 Hr Ha))).
  - exact (proj2 (proj2 (read_needs_14_bytes jiffies_1000hz div_zero_traps s 14 14 Hr Ha))).
Defined.

(** X11: a read from offset 0 either returns the positive length of the
    line and leaves the offset there, or returns an error and leaves the
    offset at 0 for a retry; after a successful read, the next read on the
    same file returns 0 and copies nothing, whatever the device has become
    in between. *)
Theorem read_then_end_of_file
    (avail avail' : nat) (len len' : Z) (sd sd' : simtemp_dev) :
  let first := st_read avail len 0 sd in
  let pos := snd (result first) in
  let second := st_read avail' len' pos sd' in
  (0 < fst (result first) /\ pos = fst (result first) /\
   result second = (0, pos) /\ filter is_copy (events second) = []) \/
  (fst (result first) < 0 /\ pos = 0).
Proof.
  cbv zeta. rewrite (st_read_spec avail len 0 sd). cbv zeta.
  pose proof (temp_line_length (temp_mc sd)) as Hn.
  change (negb (0 =? 0)) with false. cbv iota.
  destruct (len <? _); [right; split; reflexivity|].
  destruct (Z.of_nat avail <? _); [right; split; reflexivity|].
  left. unfold result. cbn [fst snd].
  split; [lia|]. split; [reflexivity|].
  rewrite st_read_spec. cbv zeta.
  replace (strlen (temp_line (temp_mc sd)) =? 0) with false
    by (symmetry; apply Z.eqb_neq; lia).
  split; reflexivity.
Qed.

(** ** Waking *)

(** X12: nothing but a producing cycle wakes the wait queue: not a write
    to an attribute (disabling included), not a read, not a poll, not a
    cycle that finds the device disabled. *)
Theorem only_producing_cycle_wakes (j : Z -> Z) (dz : option Z) (o : op) (sd : simtemp_dev) :
  In EvWakeUp (op_trace j dz o sd) ->
  exists r, o = OpWork r /\ enabled sd = true.
Proof.
  destruct o; unfold op_trace.
  - destruct (enabled sd) eqn:He; [eauto|].
    rewrite (simtemp_update_fn_disabled j dz r sd He). cbn.
    intros H. repeat (destruct H as [H|H]; [discriminate H|]). destruct H.
  - rewrite st_read_spec. cbv zeta.
    destruct (negb (ppos =? 0)); [|destruct (len <? _);
      [|destruct (Z.of_nat avail <? _)]];
      cbn; intros H; repeat (destruct H as [H|H]; [discriminate H|]); destruct H.
  - rewrite st_poll_spec. destruct (data_ready sd); cbn;
      intros H; repeat (destruct H as [H|H]; [discriminate H|]); destruct H.
  - cbn. intros H; repeat (destruct H as [H|H]; [discriminate H|]); destruct H.
  - rewrite enable_store_spec. destruct parsed as [v|]; [|cbn; tauto].
    cbv zeta. destruct (negb (v =? 0)); cbn;
      intros H; repeat (destruct H as [H|H]; [discriminate H|]); destruct H.
  - cbn. intros H; repeat (destruct H as [H|H]; [discriminate H|]); destruct H.
  - rewrite sampling_hz_store_spec. destruct parsed as [v|]; [|cbn; tauto].
    destruct ((v <? 1) || (v >? 100)); cbn; [tauto|].
    intros H; repeat (destruct H as [H|H]; [discriminate H|]); destruct H.
  - cbn. intros H; repeat (destruct H as [H|H]; [discriminate H|]); destruct H.
  - rewrite threshold_mc_store_spec. destruct parsed as [v|]; cbn; [|tauto].
    intros H; repeat (destruct H as [H|H]; [discriminate H|]); destruct H.
  - cbn. intros H; repeat (destruct H as [H|H]; [discriminate H|]); destruct H.
Qed.

Lemma only_producing_cycle_wakes_witness :
  let sd := mk_simtemp_dev true 2 40000 45000 false 0 in
  In EvWakeUp (op_trace jiffies_1000hz div_zero_traps (OpWork 7) sd) /\
  exists r, OpWork 7 = OpWork r /\ enabled sd = true.
Proof.
  intros sd.
  assert (H : In EvWakeUp (op_trace jiffies_1000hz div_zero_traps (OpWork 7) sd)).
  { cbn. tauto. }
  split; [exact H|].
  exact (only_producing_cycle_wakes jiffies_1000hz div_zero_traps (OpWork 7) sd H).
Defined.

(** ** Who changes what *)

(** X13: in a step of the system, [enabled] changes only by a write to
    [enable], [sampling_hz] only by a write of a value in [1, 100] to
    [sampling_hz], [threshold_mc] only by a write to [threshold_mc],
    [temp_mc] only by a cycle on an enabled device, and the pending state
    of the work only by a cycle or a write to [enable]. *)
Theorem step_frame (j : Z -> Z) (dz : option Z) (o : op) (s s' : system) :
  sys_step j dz o s = Some s' ->
  (enabled (dev s') <> enabled (dev s) ->
   exists v c, o = OpEnableStore (Some v) c /\
               enabled (dev s') = negb (v =? 0)) /\
  (sampling_hz (dev s') <> sampling_hz (dev s) ->
   exists v c, o = OpSamplingHzStore (Some v) c /\ 1 <= v <= 100 /\
               sampling_hz (dev s') = v) /\
  (threshold_mc (dev s') <> threshold_mc (dev s) ->
   exists v c, o = OpThresholdStore (Some v) c /\ threshold_mc (dev s') = v) /\
  (temp_mc (dev s') <> temp_mc (dev s) ->
   exists r, o = OpWork r /\ enabled (dev s) = true) /\
  (work s' <> work s ->
   (exists r, o = OpWork r) \/ (exists v c, o = OpEnableStore (Some v) c)).
Proof.
  intros Hstep. rewrite sys_step_spec in Hstep.
  destruct s as [sd w]. cbn [dev work] in *.
  destruct o; try (injection Hstep as <-; cbn [dev work];
                   repeat split; intros H; now destruct H).
  - destruct w as [d|]; [|discriminate].
    destruct (enabled sd) eqn:He.
    + destruct (udiv dz 1000 (sampling_hz sd)) as [q|]; [|discriminate].
      injection Hstep as <-. cbn [dev work produced apply_write enabled
        sampling_hz threshold_mc temp_mc].
      repeat split; try (intros H; now destruct H); eauto.
    + injection Hstep as <-. cbn [dev work].
      repeat split; try (intros H; now destruct H); eauto.
  - injection Hstep as <-. cbn [dev work].
    destruct (data_ready sd); cbn; repeat split; intros H; now destruct H.
  - destruct parsed as [v|]; injection Hstep as <-; cbn [dev work];
      [|repeat split; intros H; now destruct H].
    cbn [apply_write enabled sampling_hz threshold_mc temp_mc].
    repeat split; try (intros H; now destruct H); eauto.
  - destruct parsed as [v|]; injection Hstep as <-; cbn [dev work];
      [|repeat split; intros H; now destruct H].
    destruct ((v <? 1) || (v >? 100)) eqn:Hv;
      [repeat split; intros H; now destruct H|].
    apply orb_false_iff in Hv. destruct Hv as [H1 H2].
    apply Z.ltb_ge in H1. rewrite Z.gtb_ltb in H2. apply Z.ltb_ge in H2.
    cbn [apply_write enabled sampling_hz threshold_mc temp_mc].
    repeat split; try (intros H; now destruct H).
    intros _. exists v, count. repeat split; lia.
  - destruct parsed as [v|]; injection Hstep as <-; cbn [dev work];
      [|repeat split; intros H; now destruct H].
    cbn [apply_write enabled sampling_hz threshold_mc temp_mc].
    repeat split; try (intros H; now destruct H); eauto.
Qed.

Lemma step_frame_witness :
  let s := mk_system (mk_simtemp_dev true 2 40000 45000 true 1) (Some 500) in
  exists s',
    sys_step jiffies_1000hz div_zero_traps (OpSamplingHzStore (Some 10) 3) s = Some s' /\
    sampling_hz (dev s') <> sampling_hz (dev s) /\
    exists v c, OpSamplingHzStore (Some 10) 3 = OpSamplingHzStore (Some v) c /\
                1 <= v <= 100.
Proof.
  intros s. eexists. split; [reflexivity|].
  assert (Hne : sampling_hz (apply_write (Wsampling_hz 10) (dev s))
                <> sampling_hz (dev s)) by discriminate.
  split; [exact Hne|].
  destruct (step_frame jiffies_1000hz div_zero_traps (OpSamplingHzStore (Some 10) 3) s _
              eq_refl) as (_ & H & _).
  destruct (H Hne) as (v & c & Ho & Hv & _).
  exists v, c. split; [exact Ho | exact Hv].
Defined.

(** ** The enable attribute *)

(** X14: [enable] reads back normalised: after a write of any non-zero
    number it shows the two bytes of 1 and a newline, after a write of 0
    those of 0 and a newline; the write returns [count] and changes no
    other field. *)
Theorem enable_store_show_round_trip (v count : Z) (sd : simtemp_dev) :
  let call := enable_store (Some v) count sd in
  result call = count /\
  final call = apply_write (Wenabled (negb (v =? 0))) sd /\
  result (enable_show (final call)) =
    (((if Z.eqb v 0 then "0" else "1") ++ newline)%string, 2).
Proof.
  cbv zeta. rewrite enable_store_spec. cbv zeta.
  unfold result, final. cbn [fst snd].
  split; [reflexivity|]. split; [reflexivity|].
  destruct (v =? 0); reflexivity.
Qed.

(** ** The range of readings *)

(** X15: the range [39500, 40500] is tight: every reading in it is what a
    producing cycle stores for some 32-bit draw. *)
Theorem every_reading_in_range_is_drawn
    (j : Z -> Z) (dz : option Z) (t : Z) (sd : simtemp_dev) :
  39500 <= t <= 40500 -> enabled sd = true ->
  exists r, 0 <= r < 2 ^ 32 /\
            temp_mc (final (simtemp_update_fn j dz r sd)) = t.
Proof.
  intros Ht He. exists (t - 39500). split; [lia|].
  rewrite (simtemp_update_fn_enabled j dz _ sd He).
  unfold final, produced, jitter, u32. cbn [fst snd apply_write temp_mc].
  rewrite (Z.mod_small (t - 39500) (2 ^ 32)) by lia.
  rewrite Z.mod_small by lia. lia.
Qed.

Lemma every_reading_in_range_is_drawn_witness :
  let sd := mk_simtemp_dev true 2 40000 45000 false 0 in
  39500 <= 40500 <= 40500 /\ enabled sd = true /\
  exists r, 0 <= r < 2 ^ 32 /\
            temp_mc (final (simtemp_update_fn jiffies_1000hz div_zero_traps r sd)) = 40500.
Proof.
  intros sd.
  assert (Ht : 39500 <= 40500 <= 40500) by lia.
  split; [exact Ht|]. split; [reflexivity|].
  exact (every_reading_in_range_is_drawn jiffies_1000hz div_zero_traps 40500 sd Ht eq_refl).
Defined.

(** ** Before the first enable *)

(** X16: whatever the device tree says, the device comes up stopped, and
    until something writes a non-zero value to [enable] it stays as
    [st_init] left it: no sample counted, the baseline as reading, nothing
    for [st_poll] to report, and no work that could fire. *)
Theorem quiet_until_enabled
    (j : Z -> Z) (dz : option Z) (dt : option dt_node) (ops : list op) (s : system) :
  forallb (fun o => negb (enables o)) ops = true ->
  run j dz ops (boot dt) = Some s ->
  enabled (dev s) = false /\
  sample_count (dev s) = 0 /\
  temp_mc (dev s) = 40000 /\
  data_ready (dev s) = false /\
  result (st_poll (dev s)) = 0 /\
  (forall r, sys_step j dz (OpWork r) s = None).
Proof.
  intros Hno Hrun.
  assert (Hboot : stopped (boot dt)).
  { split; [destruct dt as [[[?|] [?|]]|]|]; reflexivity. }
  destruct (stopped_run j dz ops (boot dt) s Hboot Hno Hrun)
    as ([He Hw] & Hc & Ht & Hd).
  assert (Hd' : data_ready (dev s) = false).
  { destruct (data_ready (dev s)); [|reflexivity].
    specialize (Hd eq_refl). destruct dt as [[[?|] [?|]]|]; discriminate Hd. }
  split; [exact He|].
  split; [rewrite Hc; destruct dt as [[[?|] [?|]]|]; reflexivity|].
  split; [rewrite Ht; destruct dt as [[[?|] [?|]]|]; reflexivity|].
  split; [exact Hd'|].
  split; [rewrite st_poll_spec, Hd'; reflexivity|].
  intros r. rewrite sys_step_spec, Hw. reflexivity.
Qed.

Lemma quiet_until_enabled_witness :
  let dt := Some (mk_dt_node (Some 50) (Some 30000)) in
  let ops := [OpPoll; OpEnableStore (Some 0) 2; OpSamplingHzStore (Some 7) 2;
              OpEnableStore None 3; OpRead 64 64 0] in
  forallb (fun o => negb (enables o)) ops = true /\
  exists s, run jiffies_1000hz div_zero_traps ops (boot dt) = Some s /\
            sample_count (dev s) = 0 /\ data_ready (dev s) = false.
Proof.
  intros dt ops. split; [reflexivity|].
  eexists. split; [reflexivity|].
  destruct (quiet_until_enabled jiffies_1000hz div_zero_traps dt ops _ eq_refl eq_refl)
    as (_ & Hc & _ & Hd & _).
  split; [exact Hc | exact Hd].
Defined.
